(** * Grokipedia scraper: the structured-content reconstruction of [main.py]

    A shallow embedding of [format_content_with_sections] and of the part of
    [GrokipediaSeleniumScraper._scrape_article_page] that turns what the
    browser reports into the returned dictionary.

    Conventions of the model.
    - A Python [str] is a [string] and a character an [ascii]: texts are
      restricted to code points below 256.  [len] is [String.length].
    - Every Selenium query of [_scrape_article_page] is an input: the record
      [Page] holds, per query, what the driver answered.  Reading an element
      that was found does not raise, with one exception that the code treats
      as a tier of its own: the container's text may be unreadable, and the
      body text is then used.
    - A heading tag whose rank does not parse raises inside the first loop
      and the element is skipped, as the handler there does.
    - [print] calls are left out.
    - Of [search_and_scrape] the address of the direct navigation is
      modelled, and of the [/scrape] endpoint the validation, the
      [try]/[except]/[finally] structure and the browser's start and quit;
      clicks, waits and the clock's value are inputs or left out. *)

From Stdlib Require Import String Ascii List Arith Lia Bool.
From stdpp Require Import gmap strings.
From Equations Require Import Equations.
Import ListNotations.

(** ** Python string built-ins used by the scraper *)

Module Py.

Definition nl : ascii := "010"%char.

(** [str.isspace] on one character, for code points below 256. *)
Definition is_space (c : ascii) : bool :=
  let n := nat_of_ascii c in
  (Nat.leb 9 n && Nat.leb n 13) || (Nat.leb 28 n && Nat.leb n 32)
  || Nat.eqb n 133 || Nat.eqb n 160.

Definition is_nl (c : ascii) : bool := Ascii.eqb c nl.

Fixpoint lstrip (s : string) : string :=
  match s with
  | EmptyString => EmptyString
  | String c s' => if is_space c then lstrip s' else s
  end.

Fixpoint rstrip (s : string) : string :=
  match s with
  | EmptyString => EmptyString
  | String c s' =>
      match rstrip s' with
      | EmptyString => if is_space c then EmptyString else String c EmptyString
      | r => String c r
      end
  end.

(** [s.strip()] *)
Definition strip (s : string) : string := rstrip (lstrip s).

(** [len(s)] *)
Definition len (s : string) : nat := String.length s.

(** Truth value of a string: [if s], [not s]. *)
Definition truthy (s : string) : bool :=
  match s with EmptyString => false | String _ _ => true end.

(** [s * n] *)
Fixpoint mul (s : string) (n : nat) : string :=
  match n with
  | O => EmptyString
  | S n' => s +:+ mul s n'
  end.

(** [sep.join(parts)] *)
Fixpoint join (sep : string) (parts : list string) : string :=
  match parts with
  | [] => EmptyString
  | [x] => x
  | x :: xs => x +:+ sep +:+ join sep xs
  end.

(** [s.startswith(p)] *)
Fixpoint startswith (s p : string) : bool :=
  match p, s with
  | EmptyString, _ => true
  | String _ _, EmptyString => false
  | String a p', String b s' => Ascii.eqb a b && startswith s' p'
  end.

(** [p in s] for strings *)
Fixpoint contains (s p : string) : bool :=
  startswith s p ||
  match s with
  | EmptyString => false
  | String _ s' => contains s' p
  end.

(** [s.split('\n')] *)
Fixpoint split_nl (s : string) : list string :=
  match s with
  | EmptyString => [EmptyString]
  | String c s' =>
      if is_nl c then EmptyString :: split_nl s'
      else match split_nl s' with
           | [] => [String c EmptyString]
           | w :: ws => String c w :: ws
           end
  end.

(** [s.split()]: the maximal runs of non-whitespace characters. *)
Fixpoint split (s : string) : list string :=
  match s with
  | EmptyString => []
  | String c s' =>
      if is_space c then split s'
      else match s' with
           | EmptyString => [String c EmptyString]
           | String d _ =>
               if is_space d then String c EmptyString :: split s'
               else match split s' with
                    | [] => [String c EmptyString]
                    | w :: ws => String c w :: ws
                    end
           end
  end.

(** [s.lower()] on the ASCII letters. *)
Definition lower_char (c : ascii) : ascii :=
  let n := nat_of_ascii c in
  if Nat.leb 65 n && Nat.leb n 90 then ascii_of_nat (n + 32) else c.

Fixpoint lower (s : string) : string :=
  match s with
  | EmptyString => EmptyString
  | String c s' => String (lower_char c) (lower s')
  end.

(** [int(c)] for a one-character string: [None] stands for [ValueError]. *)
Definition int_of_char (c : ascii) : option nat :=
  let n := nat_of_ascii c in
  if Nat.leb 48 n && Nat.leb n 57 then Some (n - 48) else None.

(** [s[i]]: [None] stands for [IndexError]. *)
Definition index (s : string) (i : nat) : option ascii := String.get i s.

End Py.

Definition NL : string := String Py.nl EmptyString.
Definition NLNL : string := String Py.nl (String Py.nl EmptyString).

(** ['='*70] *)
Definition rule : string := Py.mul "=" 70.

(** ** First pass: the classified element stream *)

(** What the driver reports for one element of
    [find_elements(By.CSS_SELECTOR, "h1, h2, h3, h4, h5, h6, p")]. *)
Record WebElement := { tag_name : string; text : string }.

(** The dictionaries appended to [elements_data]. *)
Inductive ElementData :=
| Heading (htext : string) (hlevel : nat) (hindex : nat)
| Paragraph (ptext : string) (pindex : nat).

(** The body of the first loop for the element at position [idx];
    [None] is [continue]. *)
Definition classify (idx : nat) (element : WebElement) : option ElementData :=
  let tag := Py.lower (tag_name element) in
  let txt := Py.strip (text element) in
  if negb (Py.truthy txt) || Nat.ltb (Py.len txt) 3 then None
  else if Py.startswith tag "h" then
    match Py.index tag 1 with
    | None => None
    | Some d =>
        match Py.int_of_char d with
        | None => None
        | Some lv => Some (Heading txt lv idx)
        end
    end
  else if String.eqb tag "p" && Nat.ltb 20 (Py.len txt) then
    Some (Paragraph txt idx)
  else None.

Fixpoint first_pass_from (idx : nat) (all_elements : list WebElement)
  : list ElementData :=
  match all_elements with
  | [] => []
  | element :: rest =>
      match classify idx element with
      | Some d => d :: first_pass_from (S idx) rest
      | None => first_pass_from (S idx) rest
      end
  end.

Definition first_pass (all_elements : list WebElement) : list ElementData :=
  first_pass_from 0 all_elements.

(** ** Second pass: grouping paragraphs under their heading *)

(** The [current_section] dictionary; [title] starts as [None]. *)
Record SectionDict := {
  title : option string;
  level : nat;
  content : list string
}.

Record GroupState := {
  current_section : SectionDict;
  structured_content : list SectionDict;
  all_text_parts : list string;
  section_count : nat;
  paragraph_count : nat
}.

Definition initial_state : GroupState :=
  {| current_section := {| title := None; level := 0; content := [] |};
     structured_content := [];
     all_text_parts := [];
     section_count := 0;
     paragraph_count := 0 |}.

Definition title_text (sec : SectionDict) : string :=
  match title sec with Some t => t | None => "None" end.

Definition title_truthy (sec : SectionDict) : bool :=
  match title sec with Some t => Py.truthy t | None => false end.

Definition nonempty {A} (l : list A) : bool :=
  match l with [] => false | _ :: _ => true end.

(** The four strings appended to [all_text_parts] for a saved section. *)
Definition section_parts (sec : SectionDict) : list string :=
  [ NLNL +:+ rule +:+ NL;
    title_text sec +:+ NL;
    rule +:+ NLNL;
    Py.join NLNL (content sec) ].

(** [if current_section['title'] and current_section['content']: ...] *)
Definition save_section (st : GroupState) : GroupState :=
  let sec := current_section st in
  if title_truthy sec && nonempty (content sec) then
    {| current_section := sec;
       structured_content := structured_content st ++ [sec];
       all_text_parts := all_text_parts st ++ section_parts sec;
       section_count := S (section_count st);
       paragraph_count := paragraph_count st |}
  else st.

(** The inner [while] loop, run on [elements_data[i+1:]]: the texts of the
    paragraphs up to the first element that is not one. *)
Fixpoint collect_paragraphs (following : list ElementData) : list string :=
  match following with
  | Paragraph t _ :: following' => t :: collect_paragraphs following'
  | _ => []
  end.

(** The second loop; at position [i] the argument is [elements_data[i:]]. *)
Fixpoint second_pass (elements_data : list ElementData) (st : GroupState)
  : GroupState :=
  match elements_data with
  | [] => st
  | Heading t lv _ :: following =>
      let st' := save_section st in
      let paras := collect_paragraphs following in
      second_pass following
        {| current_section := {| title := Some t; level := lv; content := paras |};
           structured_content := structured_content st';
           all_text_parts := all_text_parts st';
           section_count := section_count st';
           paragraph_count := paragraph_count st' + length paras |}
  | Paragraph _ _ :: following => second_pass following st
  end.

(** Both loops and the "add the last section" step. *)
Definition group_from (st : GroupState) (elements_data : list ElementData)
  : GroupState :=
  save_section (second_pass elements_data st).

Definition group (elements_data : list ElementData) : GroupState :=
  group_from initial_state elements_data.

Definition grouped_sections (elements_data : list ElementData) : list SectionDict :=
  structured_content (group elements_data).

(** [content_text = "".join(all_text_parts)] *)
Definition grouped_text (elements_data : list ElementData) : string :=
  Py.join "" (all_text_parts (group elements_data)).

(** ** [format_content_with_sections] *)

(** The header appended for a matched line:
    [f"\n\n{'='*70}\n{title}\n{'='*70}\n\n"]. *)
Definition section_header (t : string) : string :=
  NLNL +:+ rule +:+ NL +:+ t +:+ NL +:+ rule +:+ NLNL.

(** The inner [for title in section_titles] loop with its [break]; returns
    [formatted_parts] and the flag [is_section_title]. *)
Fixpoint match_titles (line_stripped : string) (section_titles : list string)
    (formatted_parts : list string) : list string * bool :=
  match section_titles with
  | [] => (formatted_parts, false)
  | t :: rest =>
      if String.eqb line_stripped t || Py.startswith line_stripped t
      then (formatted_parts ++ [section_header t], true)
      else match_titles line_stripped rest formatted_parts
  end.

(** The body of the outer [for i, line in enumerate(lines)] loop. *)
Definition format_line (section_titles : list string)
    (formatted_parts : list string) (line : string) : list string :=
  let line_stripped := Py.strip line in
  let '(parts, is_section_title) :=
    match_titles line_stripped section_titles formatted_parts in
  if negb is_section_title && Py.truthy line_stripped
  then parts ++ [line]
  else parts.

Definition format_lines (section_titles : list string) (lines : list string)
  : list string :=
  fold_left (format_line section_titles) lines [].

(** Number of newline characters at the front of a string, and the string
    behind them. *)
Fixpoint count_nl (s : string) : nat :=
  match s with
  | String c s' => if Py.is_nl c then S (count_nl s') else 0
  | EmptyString => 0
  end.

Fixpoint drop_nl (s : string) : string :=
  match s with
  | String c s' => if Py.is_nl c then drop_nl s' else s
  | EmptyString => EmptyString
  end.

(** [re.sub(r'\n{4,}', '\n\n', s)]: scanning from the left, the pattern
    matches at a position where at least four newlines start, greedily takes
    the whole run, and the scan resumes behind it; elsewhere the character
    is copied. *)
Equations? re_sub_newlines (s : string) : string by wf (String.length s) lt :=
  re_sub_newlines EmptyString := EmptyString;
  re_sub_newlines (String c s') :=
    if Py.is_nl c && Nat.leb 3 (count_nl s')
    then NLNL +:+ re_sub_newlines (drop_nl s')
    else String c (re_sub_newlines s').
Proof.
  all: simpl; try lia.
  assert (Hle : forall s, String.length (drop_nl s) <= String.length s).
  { intros s. induction s as [|a s IH]; simpl; [lia|].
    destruct (Py.is_nl a); simpl; lia. }
  specialize (Hle s'). lia.
Qed.

Definition format_content_with_sections (content_text : string)
    (section_titles : list string) : string :=
  if negb (nonempty section_titles) || negb (Py.truthy content_text)
  then content_text
  else
    let lines := Py.split_nl content_text in
    let formatted_parts := format_lines section_titles lines in
    re_sub_newlines (Py.join NL formatted_parts).

(** ** [_scrape_article_page] *)

(** One answer per driver query; [None] stands for the exception the
    surrounding handler catches. *)
Record Page := {
  h1_text : option string;            (* find_element("h1").text *)
  h1_text3xl_text : option string;    (* find_element("h1.text-3xl").text *)
  h1_bold_text : option string;       (* find_element("h1.font-bold").text *)
  current_url : string;
  container_elements : list WebElement;
  document_elements : list WebElement;
  container_paragraphs : list string; (* texts of find_elements(By.TAG_NAME, "p") *)
  container_text : option string;     (* content_container.text *)
  body_text : string;
  link_hrefs : list (option string);  (* get_attribute('href') of each a[href^='http'] *)
  container_headings : list string    (* texts of the h1..h6 of the container *)
}.

Fixpoint find_title (title_elements : list (option string)) : string :=
  match title_elements with
  | [] => "Title not found"
  | None :: rest => find_title rest
  | Some t :: rest =>
      if Py.truthy (Py.strip t) then Py.strip t else find_title rest
  end.

Definition page_title (page : Page) : string :=
  find_title [h1_text page; h1_text3xl_text page; h1_bold_text page].

Definition all_elements (page : Page) : list WebElement :=
  if nonempty (container_elements page) then container_elements page
  else document_elements page.

Definition elements_data (page : Page) : list ElementData :=
  first_pass (all_elements page).

(** "Fallback: if no structured content, try getting all paragraphs". *)
Definition paragraph_texts (page : Page) : list string :=
  List.filter (fun t => Py.truthy t && Nat.ltb 20 (Py.len t))
         (map Py.strip (container_paragraphs page)).

Definition paragraph_fallback (page : Page) (content_text : string) : string :=
  if negb (Py.truthy content_text) || Nat.ltb (Py.len content_text) 100 then
    let texts := paragraph_texts page in
    if nonempty texts then Py.join NLNL texts else content_text
  else content_text.

(** "Final fallback: get all visible text". *)
Definition visible_text (page : Page) : string :=
  match container_text page with
  | Some t => t
  | None => body_text page
  end.

Definition final_fallback (page : Page) (content_text : string) : string :=
  if negb (Py.truthy content_text) || Nat.ltb (Py.len content_text) 50
  then visible_text page
  else content_text.

Definition fallback_chain (page : Page) (content_text : string) : string :=
  final_fallback page (paragraph_fallback page content_text).

(** References. *)
Record Reference := { number : nat; url : string }.

Definition external (href : string) : bool :=
  Py.truthy href && negb (Py.contains href "grokipedia.com").

(** The loop over [ref_elements]; the argument is what is left to scan. *)
Fixpoint collect_references (hrefs : list (option string))
    (seen_urls : gset string) (references : list Reference) : list Reference :=
  match hrefs with
  | [] => references
  | None :: rest => collect_references rest seen_urls references
  | Some href :: rest =>
      if external href && negb (bool_decide (href ∈ seen_urls)) then
        let references' :=
          references ++ [{| number := length references + 1; url := href |}] in
        if Nat.leb 100 (length references') then references'
        else collect_references rest ({[href]} ∪ seen_urls) references'
      else collect_references rest seen_urls references
  end.

(** [references = []], [seen_urls = set()] and the loop. *)
Definition references_of (hrefs : list (option string)) : list Reference :=
  collect_references hrefs ∅ [].

Definition extract_references (page : Page) : list Reference :=
  references_of (link_hrefs page).

(** The heading texts kept for post-processing. *)
Definition heading_titles (page : Page) (doc_title : string) : list string :=
  List.filter (fun h => Py.truthy h && Nat.ltb 2 (Py.len h) && negb (String.eqb h doc_title))
         (map Py.strip (container_headings page)).

Definition extract_section_titles (page : Page) (doc_title : string)
    (sections : list SectionDict) : list string :=
  if negb (nonempty sections) || Nat.eqb (length sections) 0
  then heading_titles page doc_title
  else [].

(** The returned dictionary. *)
Record Result := {
  r_title : string;
  r_url : string;
  r_content_text : string;
  r_word_count : nat;
  r_char_count : nat;
  r_references_count : nat;
  r_references : list Reference;
  r_structured_content : option (list SectionDict);
  r_section_titles : option (list string)
}.

Definition or_none {A} (l : list A) : option (list A) :=
  if nonempty l then Some l else None.

Definition scrape_article_page (page : Page) : Result :=
  let doc_title := page_title page in
  let st := group (elements_data page) in
  let sections := structured_content st in
  let content_text := Py.join "" (all_text_parts st) in
  let content_text := fallback_chain page content_text in
  let word_count := length (Py.split content_text) in
  let char_count := Py.len content_text in
  let references := extract_references page in
  let section_titles := extract_section_titles page doc_title sections in
  let formatter_runs :=
    nonempty section_titles
    && (negb (nonempty sections) || Nat.eqb (length sections) 0) in
  let '(content_text, word_count, char_count) :=
    if formatter_runs then
      let formatted := format_content_with_sections content_text section_titles in
      (formatted, length (Py.split formatted), Py.len formatted)
    else (content_text, word_count, char_count) in
  {| r_title := doc_title;
     r_url := current_url page;
     r_content_text := content_text;
     r_word_count := word_count;
     r_char_count := char_count;
     r_references_count := length references;
     r_references := references;
     r_structured_content := or_none sections;
     r_section_titles := or_none section_titles |}.

(** ** Reference notions the code is compared with *)

Definition is_heading (e : ElementData) : bool :=
  match e with Heading _ _ _ => true | Paragraph _ _ => false end.

Definition is_paragraph (e : ElementData) : bool :=
  match e with Heading _ _ _ => false | Paragraph _ _ => true end.

Definition elem_text (e : ElementData) : string :=
  match e with Heading t _ _ => t | Paragraph t _ => t end.

(** A heading carries a title that counts as true. *)
Definition titled (e : ElementData) : Prop :=
  match e with
  | Heading t _ _ => Py.truthy t = true
  | Paragraph _ _ => True
  end.

(** The sequence ends here or goes on with a heading. *)
Definition at_boundary (following : list ElementData) : Prop :=
  match following with
  | [] => True
  | e :: _ => is_heading e = true
  end.

(** Number of headings that are directly followed by a paragraph. *)
Fixpoint count_runs (elements_data : list ElementData) : nat :=
  match elements_data with
  | [] => 0
  | Heading _ _ _ :: ((Paragraph _ _ :: _) as following) => S (count_runs following)
  | _ :: following => count_runs following
  end.

(** The sections the grouper keeps, read off the element sequence: one per
    heading whose own run of paragraphs is not empty. *)
Definition realized (sec : SectionDict) : bool :=
  title_truthy sec && nonempty (content sec).

Definition saved (sec : SectionDict) : list SectionDict :=
  if realized sec then [sec] else [].

Fixpoint sections_of (elements_data : list ElementData) : list SectionDict :=
  match elements_data with
  | [] => []
  | Heading t lv _ :: following =>
      saved {| title := Some t; level := lv;
               content := collect_paragraphs following |}
      ++ sections_of following
  | Paragraph _ _ :: following => sections_of following
  end.

(** The delimiter block in the words of the specification: after the line
    break that ends the running line, a blank line, a line of 70 [=], the
    title, a line of 70 [=] and a blank line, each with its line break. *)
Definition delimiter_lines (t : string) : list string :=
  [ ""; Py.mul "=" 70; t; Py.mul "=" 70; "" ].

Fixpoint unlines (ls : list string) : string :=
  match ls with
  | [] => ""
  | l :: ls' => l +:+ NL +:+ unlines ls'
  end.

Definition delimiter_block (t : string) : string :=
  NL +:+ unlines (delimiter_lines t).

Fixpoint newline_free (s : string) : bool :=
  match s with
  | EmptyString => true
  | String c s' => negb (Py.is_nl c) && newline_free s'
  end.

Fixpoint space_free (s : string) : bool :=
  match s with
  | EmptyString => true
  | String c s' => negb (Py.is_space c) && space_free s'
  end.

(** The formatting rule for one line in the words of the specification:
    the first title, in list order, that the trimmed line equals or starts
    with gives a delimiter block; without one the line is kept as it is
    unless it is empty after trimming. *)
Definition title_matches (line_trimmed t : string) : bool :=
  String.eqb line_trimmed t || String.prefix t line_trimmed.

Definition emitted (section_titles : list string) (line : string) : list string :=
  match find (title_matches (Py.strip line)) section_titles with
  | Some t => [delimiter_block t]
  | None => if Py.truthy (Py.strip line) then [line] else []
  end.

(** A string without four newline characters in a row: no suffix starts
    with four of them. *)
Fixpoint no_long_run (s : string) : Prop :=
  match s with
  | EmptyString => True
  | String _ s' => count_nl s < 4 /\ no_long_run s'
  end.

Definition starts_nl (s : string) : bool :=
  match s with
  | String c _ => Py.is_nl c
  | EmptyString => false
  end.

Fixpoint ends_nl (s : string) : bool :=
  match s with
  | EmptyString => false
  | String c EmptyString => Py.is_nl c
  | String _ s' => ends_nl s'
  end.

(** Distinct entries in the order of their first occurrence. *)
Fixpoint first_seen (l : list string) : list string :=
  match l with
  | [] => []
  | x :: l' => x :: List.filter (fun y => negb (String.eqb y x)) (first_seen l')
  end.

(** The link targets the collector may keep, in document order. *)
Fixpoint outbound (hrefs : list (option string)) : list string :=
  match hrefs with
  | [] => []
  | Some href :: rest =>
      if external href then href :: outbound rest else outbound rest
  | None :: rest => outbound rest
  end.

(** A link target that is not in the set of seen ones. *)
Definition unseen (seen_urls : gset string) (href : string) : bool :=
  negb (bool_decide (href ∈ seen_urls)).

(** A text is insufficient for a tier with threshold [n]. *)
Definition insufficient (n : nat) (content_text : string) : bool :=
  negb (Py.truthy content_text) || Nat.ltb (Py.len content_text) n.

(** The text of the paragraph-list tier. *)
Definition paragraph_list_text (page : Page) : string :=
  Py.join NLNL (paragraph_texts page).

(** The text handed to the fallback chain, and the chain's result. *)
Definition structured_text (page : Page) : string :=
  grouped_text (elements_data page).

Definition fallback_text (page : Page) : string :=
  fallback_chain page (structured_text page).

Definition section_titles_of (page : Page) : list string :=
  extract_section_titles page (page_title page)
    (grouped_sections (elements_data page)).

Definition formatter_runs (page : Page) : bool :=
  nonempty (section_titles_of page)
  && negb (nonempty (grouped_sections (elements_data page))).

(** ** Sample pages *)

Definition overview_paragraph : string :=
  "This article discusses many long details worth over twenty chars.".

Definition history_paragraph : string :=
  "Another sufficiently long paragraph describing history events.".

Definition sample_elements : list WebElement :=
  [ {| tag_name := "h1"; text := "Overview" |};
    {| tag_name := "p"; text := overview_paragraph |};
    {| tag_name := "h2"; text := "History" |};
    {| tag_name := "p"; text := history_paragraph |};
    {| tag_name := "h3"; text := "See also" |} ].

Definition sample_page : Page :=
  {| h1_text := Some "Overview";
     h1_text3xl_text := None;
     h1_bold_text := None;
     current_url := "https://grokipedia.com/page/Overview";
     container_elements := sample_elements;
     document_elements := [];
     container_paragraphs := [overview_paragraph; history_paragraph];
     container_text := Some "Overview";
     body_text := "Overview";
     link_hrefs := [Some "https://example.org/a"; Some "https://grokipedia.com/b";
                    Some "https://example.org/a"; None; Some "https://example.org/c"];
     container_headings := ["Overview"; "History"; "See also"] |}.

(** A page without usable structure: one short paragraph, two headings in
    the container's heading query. *)
Definition flat_page : Page :=
  {| h1_text := Some "Flat";
     h1_text3xl_text := None;
     h1_bold_text := None;
     current_url := "https://grokipedia.com/page/Flat";
     container_elements := [ {| tag_name := "p"; text := "short" |} ];
     document_elements := [];
     container_paragraphs := ["short"];
     container_text := Some ("Intro" +:+ NL +:+ "History" +:+ NL +:+ "short");
     body_text := "body";
     link_hrefs := [];
     container_headings := ["Flat"; "History"] |}.

(** 150 distinct outbound link targets. *)
Definition many_links : list (option string) :=
  map (fun n => Some ("https://example.org/" +:+ Py.mul "a" n)) (seq 0 150).

(** ** Direct navigation and the [/scrape] endpoint *)

(** Letter case as [str.title] and [str.lower] see it on ASCII text. *)
Module Case.

Definition is_upper (c : ascii) : bool :=
  let n := nat_of_ascii c in Nat.leb 65 n && Nat.leb n 90.

Definition is_lower (c : ascii) : bool :=
  let n := nat_of_ascii c in Nat.leb 97 n && Nat.leb n 122.

Definition is_cased (c : ascii) : bool := is_upper c || is_lower c.

Definition to_upper (c : ascii) : ascii :=
  if is_lower c then ascii_of_nat (nat_of_ascii c - 32) else c.

Definition to_lower (c : ascii) : ascii := Py.lower_char c.

(** [s.title()]: CPython walks the string with the flag
    [previous_is_cased]; a character after a cased one is lowered, any other
    is put in title case. *)
Fixpoint title_from (previous_is_cased : bool) (s : string) : string :=
  match s with
  | EmptyString => EmptyString
  | String c s' =>
      String (if previous_is_cased then to_lower c else to_upper c)
             (title_from (is_cased c) s')
  end.

Definition title (s : string) : string := title_from false s.

(** [s.replace(' ', '_')] *)
Fixpoint replace_space (s : string) : string :=
  match s with
  | EmptyString => EmptyString
  | String c s' =>
      String (if Ascii.eqb c " " then "_"%char else c) (replace_space s')
  end.

Definition is_ascii_char (c : ascii) : bool := Nat.ltb (nat_of_ascii c) 128.

Fixpoint is_ascii (s : string) : bool :=
  match s with
  | EmptyString => true
  | String c s' => is_ascii_char c && is_ascii s'
  end.

End Case.

(** [f"https://grokipedia.com/page/{query.replace(' ', '_').title()}"],
    the address of the three direct navigations of [search_and_scrape]. *)
Definition page_url (query : string) : string :=
  "https://grokipedia.com/page/" +:+ Case.title (Case.replace_space query).

Record SearchRequest := { query : string; headless : bool }.

(** What a request meets outside [scrape_grokipedia]: whether Chrome starts
    ([Some msg]: the constructor raises with that message), how
    [search_and_scrape] ends (with the error dictionary for an exception of
    that message, or on the page it scrapes), and the clock. *)
Record Outside := {
  chrome_fails : option string;
  search_ends : string + Page;
  now_isoformat : string
}.

(** The dictionary [search_and_scrape] returns. *)
Inductive ScrapeData :=
| ErrorDict (error : string)
| ArticleDict (data : Result).

Definition search_and_scrape (outside : Outside) : ScrapeData :=
  match search_ends outside with
  | inl msg => ErrorDict msg
  | inr page => ArticleDict (scrape_article_page page)
  end.

Inductive DriverEvent :=
| ChromeStarted (with_headless : bool)
| ChromeQuit.

(** The body sent back: the scraped dictionary with the two entries the
    endpoint adds. *)
Record JsonBody := {
  body_data : Result;
  body_timestamp : string;
  body_query : string
}.

(** What a [raise] carries. *)
Inductive Raised :=
| HTTPException (status_code : nat) (detail : string)
| OtherException (message : string).

(** The state a request runs in: whether the variable [scraper] holds a
    scraper (it starts as [None]) and what has happened to the browser. *)
Record RequestState := {
  scraper : bool;
  driver_events : list DriverEvent
}.

Definition initial_request_state : RequestState :=
  {| scraper := false; driver_events := [] |}.

(** Computations that return or raise, threading the state. *)
Definition Run (A : Type) : Type := RequestState -> (A + Raised) * RequestState.

Definition ret {A} (x : A) : Run A := fun st => (inl x, st).

Definition raise {A} (e : Raised) : Run A := fun st => (inr e, st).

Definition bind {A B} (m : Run A) (k : A -> Run B) : Run B :=
  fun st =>
    match m st with
    | (inl x, st') => k x st'
    | (inr e, st') => (inr e, st')
    end.

(** [scraper = GrokipediaSeleniumScraper(headless=...)]: the constructor
    starts Chrome or raises; the variable is assigned only when it
    returns. *)
Definition new_scraper (with_headless : bool) (outside : Outside) : Run unit :=
  fun st =>
    match chrome_fails outside with
    | Some msg => (inr (OtherException msg), st)
    | None =>
        (inl tt,
         {| scraper := true;
            driver_events := driver_events st ++ [ChromeStarted with_headless] |})
    end.

(** [if scraper: scraper.close()] *)
Definition close_scraper : Run unit :=
  fun st =>
    if scraper st
    then (inl tt, {| scraper := scraper st;
                     driver_events := driver_events st ++ [ChromeQuit] |})
    else (inl tt, st).

(** The body of the [try]. *)
Definition try_body (request : SearchRequest) (outside : Outside) : Run JsonBody :=
  bind (new_scraper (headless request) outside) (fun _ =>
    match search_and_scrape outside with
    | ErrorDict msg => raise (HTTPException 500 msg)
    | ArticleDict data =>
        ret {| body_data := data;
               body_timestamp := now_isoformat outside;
               body_query := query request |}
    end).

(** [except HTTPException: raise] and
    [except Exception as e: raise HTTPException(500, f"Scraping failed: ...")]. *)
Definition except_clauses {A} (m : Run A) : Run A :=
  fun st =>
    match m st with
    | (inr (OtherException msg), st') =>
        (inr (HTTPException 500 ("Scraping failed: " +:+ msg)), st')
    | outcome => outcome
    end.

(** [finally:] the cleanup runs whatever the outcome, which it keeps. *)
Definition finally {A} (m : Run A) (cleanup : Run unit) : Run A :=
  fun st =>
    match m st with
    | (outcome, st') =>
        match cleanup st' with
        | (inl _, st'') => (outcome, st'')
        | (inr e, st'') => (inr e, st'')
        end
    end.

(** [scrape_grokipedia] *)
Definition scrape_grokipedia (request : SearchRequest) (outside : Outside)
  : Run JsonBody :=
  if negb (Py.truthy (query request))
     || negb (Py.truthy (Py.strip (query request)))
  then raise (HTTPException 400 "Query cannot be empty")
  else finally (except_clauses (try_body request outside)) close_scraper.

(** One request, from the initial state. *)
Definition handle (request : SearchRequest) (outside : Outside)
  : (JsonBody + Raised) * RequestState :=
  scrape_grokipedia request outside initial_request_state.

(** ** Further notions used in the statements *)

Definition elem_index (e : ElementData) : nat :=
  match e with Heading _ _ i => i | Paragraph _ i => i end.

(** The sequence from its first heading on. *)
Fixpoint from_first_heading (elements_data : list ElementData)
  : list ElementData :=
  match elements_data with
  | [] => []
  | Heading _ _ _ :: _ => elements_data
  | Paragraph _ _ :: following => from_first_heading following
  end.

Definition paragraph_texts_of (elements_data : list ElementData) : list string :=
  map elem_text (List.filter is_paragraph elements_data).

(** A saved section as it stands in the flat text. *)
Definition render_section (sec : SectionDict) : string :=
  delimiter_block (title_text sec) +:+ Py.join NLNL (content sec).

Definition render_sections (sections : list SectionDict) : string :=
  Py.join "" (map render_section sections).

(** Only whitespace, if anything. *)
Fixpoint all_space (s : string) : bool :=
  match s with
  | EmptyString => true
  | String c s' => Py.is_space c && all_space s'
  end.

(** The text without its newline characters. *)
Fixpoint remove_nl (s : string) : string :=
  match s with
  | EmptyString => EmptyString
  | String c s' => if Py.is_nl c then remove_nl s' else String c (remove_nl s')
  end.

(** No title of the list matches the line. *)
Definition unmatched (section_titles : list string) (line : string) : bool :=
  match find (title_matches (Py.strip line)) section_titles with
  | Some _ => false
  | None => true
  end.

Definition nonblank (line : string) : bool := Py.truthy (Py.strip line).

(** References for a list of URLs, numbered from [n] on. *)
Fixpoint number_from (n : nat) (urls : list string) : list Reference :=
  match urls with
  | [] => []
  | u :: urls' => {| number := n; url := u |} :: number_from (S n) urls'
  end.

(** The tags the selector ["h1, h2, h3, h4, h5, h6, p"] can match. *)
Definition selected_tag (element : WebElement) : bool :=
  existsb (String.eqb (Py.lower (tag_name element)))
          ["h1"; "h2"; "h3"; "h4"; "h5"; "h6"; "p"].

Fixpoint increasing (l : list nat) : Prop :=
  match l with
  | [] => True
  | x :: l' => Forall (fun y => x < y) l' /\ increasing l'
  end.

(** A request whose search ends on the sample page. *)
Definition sample_outside : Outside :=
  {| chrome_fails := None;
     search_ends := inr sample_page;
     now_isoformat := "2025-01-01T00:00:00" |}.

(** * Proofs *)

(** ** Strings *)

Lemma app_nil_l_str s : "" +:+ s = s.
Proof. reflexivity. Qed.

Lemma app_cons_str c s t : String c s +:+ t = String c (s +:+ t).
Proof. reflexivity. Qed.

Lemma app_nil_r_str s : s +:+ "" = s.
Proof. induction s as [|c s IH]; [reflexivity|]. rewrite app_cons_str, IH. reflexivity. Qed.

Lemma app_assoc_str s t u : (s +:+ t) +:+ u = s +:+ (t +:+ u).
Proof.
  induction s as [|c s IH]; [reflexivity|].
  rewrite !app_cons_str, IH. reflexivity.
Qed.

Lemma length_app_str s t :
  String.length (s +:+ t) = String.length s + String.length t.
Proof.
  induction s as [|c s IH]; [reflexivity|].
  rewrite app_cons_str. simpl. rewrite IH. reflexivity.
Qed.

Lemma nonempty_true {A} (l : list A) : nonempty l = true <-> l <> [].
Proof. destruct l; simpl; split; intros; congruence. Qed.

(** ** The first pass *)

Lemma classify_heading idx element t lv i :
  classify idx element = Some (Heading t lv i) ->
  Py.truthy t = true /\ 3 <= Py.len t.
Proof.
  unfold classify.
  destruct (Py.truthy (Py.strip (text element))) eqn:Ht; simpl; [|discriminate].
  destruct (Nat.ltb_spec (Py.len (Py.strip (text element))) 3); [discriminate|].
  destruct (Py.startswith _ "h").
  - destruct (Py.index _ 1); [|discriminate].
    destruct (Py.int_of_char _); [|discriminate].
    intros [= <- <- <-]. split; assumption.
  - destruct (_ && _); discriminate.
Qed.

Lemma classify_paragraph idx element t i :
  classify idx element = Some (Paragraph t i) ->
  20 < Py.len t.
Proof.
  unfold classify.
  destruct (negb _ || _); [discriminate|].
  destruct (Py.startswith _ "h").
  - destruct (Py.index _ 1); [|discriminate].
    destruct (Py.int_of_char _); discriminate.
  - destruct (String.eqb _ "p"); simpl; [|discriminate].
    destruct (Nat.ltb_spec 20 (Py.len (Py.strip (text element)))); [|discriminate].
    intros [= <- <-]. assumption.
Qed.

Lemma first_pass_from_titled idx raw : Forall titled (first_pass_from idx raw).
Proof.
  revert idx. induction raw as [|element raw IH]; intros idx; simpl.
  - constructor.
  - destruct (classify idx element) as [d|] eqn:Hc; [|apply IH].
    constructor; [|apply IH].
    destruct d as [t lv i|t i]; simpl; [|exact I].
    apply (classify_heading _ _ _ _ _ Hc).
Qed.

Lemma first_pass_titled raw : Forall titled (first_pass raw).
Proof. apply first_pass_from_titled. Qed.

(** ** The second pass *)

Lemma save_section_structured st :
  structured_content (save_section st)
  = structured_content st ++ saved (current_section st).
Proof.
  unfold save_section, saved, realized.
  destruct (title_truthy _ && nonempty _); simpl; [reflexivity|].
  rewrite app_nil_r. reflexivity.
Qed.

Lemma save_section_parts st :
  all_text_parts (save_section st)
  = all_text_parts st ++ concat (map section_parts (saved (current_section st))).
Proof.
  unfold save_section, saved, realized.
  destruct (title_truthy _ && nonempty _); simpl; rewrite ?app_nil_r; reflexivity.
Qed.

Lemma group_from_structured ed : forall st,
  structured_content (group_from st ed)
  = structured_content st ++ saved (current_section st) ++ sections_of ed.
Proof.
  unfold group_from.
  induction ed as [|e ed IH]; intros st.
  - simpl. rewrite app_nil_r. apply save_section_structured.
  - destruct e as [t lv i|t i]; simpl.
    + rewrite IH. simpl. rewrite save_section_structured.
      rewrite <- !app_assoc. reflexivity.
    + apply IH.
Qed.

Lemma group_from_parts ed : forall st,
  all_text_parts (group_from st ed)
  = all_text_parts st
    ++ concat (map section_parts (saved (current_section st) ++ sections_of ed)).
Proof.
  unfold group_from.
  induction ed as [|e ed IH]; intros st.
  - simpl. rewrite app_nil_r. apply save_section_parts.
  - destruct e as [t lv i|t i]; simpl.
    + rewrite IH. simpl. rewrite save_section_parts.
      rewrite !map_app, !concat_app, <- !app_assoc. reflexivity.
    + apply IH.
Qed.

Lemma grouped_sections_eq ed : grouped_sections ed = sections_of ed.
Proof.
  unfold grouped_sections, group. rewrite group_from_structured. reflexivity.
Qed.

Lemma all_text_parts_eq ed :
  all_text_parts (group ed) = concat (map section_parts (sections_of ed)).
Proof. unfold group. rewrite group_from_parts. reflexivity. Qed.

Lemma collect_paragraphs_boundary pre post :
  at_boundary post ->
  collect_paragraphs (pre ++ post) = collect_paragraphs pre.
Proof.
  intros Hb. induction pre as [|e pre IH]; simpl.
  - destruct post as [|[?|?] ?]; simpl in *; [reflexivity|reflexivity|discriminate].
  - destruct e; [reflexivity|]. rewrite IH. reflexivity.
Qed.

Lemma collect_paragraphs_all paras :
  Forall (fun e => is_paragraph e = true) paras ->
  collect_paragraphs paras = map elem_text paras.
Proof.
  induction 1 as [|e paras He _ IH]; [reflexivity|].
  destruct e; simpl in *; [discriminate|]. rewrite IH. reflexivity.
Qed.

Lemma sections_of_paragraphs paras :
  Forall (fun e => is_paragraph e = true) paras ->
  sections_of paras = [].
Proof.
  induction 1 as [|e paras He _ IH]; [reflexivity|].
  destruct e; simpl in *; [discriminate|]. exact IH.
Qed.

Lemma sections_of_app pre post :
  at_boundary post ->
  sections_of (pre ++ post) = sections_of pre ++ sections_of post.
Proof.
  intros Hb. induction pre as [|e pre IH]; [reflexivity|].
  destruct e as [t lv i|t i]; simpl.
  - rewrite (collect_paragraphs_boundary _ _ Hb), IH, <- app_assoc. reflexivity.
  - exact IH.
Qed.

Lemma sections_of_count ed :
  Forall titled ed -> length (sections_of ed) = count_runs ed.
Proof.
  induction 1 as [|e ed He _ IH]; [reflexivity|].
  destruct e as [t lv i|t i]; simpl in *.
  - rewrite length_app, IH. unfold saved, realized, title_truthy. simpl.
    rewrite He. destruct ed as [|[?|?] ?]; reflexivity.
  - exact IH.
Qed.

Lemma sections_of_origin ed sec :
  In sec (sections_of ed) ->
  exists pre t lv i following,
    ed = pre ++ Heading t lv i :: following
    /\ sec = {| title := Some t; level := lv;
                content := collect_paragraphs following |}
    /\ realized sec = true.
Proof.
  induction ed as [|e ed IH]; simpl; [intros []|].
  destruct e as [t lv i|t i].
  - rewrite in_app_iff. intros [Hin|Hin].
    + unfold saved in Hin.
      match type of Hin with context [realized ?x] =>
        destruct (realized x) eqn:Hr end; simpl in Hin; [|destruct Hin].
      destruct Hin as [<-|[]].
      exists [], t, lv, i, ed. auto.
    + destruct (IH Hin) as (pre & t' & lv' & i' & f & -> & Hs & Hr).
      exists (Heading t lv i :: pre), t', lv', i', f. auto.
  - intros Hin. destruct (IH Hin) as (pre & t' & lv' & i' & f & -> & Hs & Hr).
    exists (Paragraph t i :: pre), t', lv', i', f. auto.
Qed.

(** ** The assembled result *)

Lemma scrape_structured page :
  r_structured_content (scrape_article_page page)
  = or_none (grouped_sections (elements_data page)).
Proof.
  unfold scrape_article_page. cbv zeta.
  destruct (nonempty _ && _); reflexivity.
Qed.

Lemma or_none_some {A} (l l' : list A) : or_none l = Some l' -> l' = l /\ l <> [].
Proof.
  destruct l as [|a l]; unfold or_none; simpl; [discriminate|].
  intros [= <-]. split; [reflexivity|discriminate].
Qed.

(** ** Claims on the grouper *)

(** C1: in the classified sequence of any element list, a heading that is
    directly followed by one or more paragraphs, up to the next heading or
    the end, gives exactly one saved section: it stands between the sections
    of what precedes and of what follows, carries the heading's title and
    level, and holds exactly those paragraphs in their order.  In all, there
    are as many saved sections as headings directly followed by a
    paragraph. *)
Theorem grouper_realizes_each_run raw pre t lv i paras post :
  first_pass raw = pre ++ Heading t lv i :: paras ++ post ->
  paras <> [] ->
  Forall (fun e => is_paragraph e = true) paras ->
  at_boundary post ->
  grouped_sections (first_pass raw)
  = grouped_sections pre
    ++ {| title := Some t; level := lv; content := map elem_text paras |}
    :: grouped_sections post
  /\ length (grouped_sections (first_pass raw)) = count_runs (first_pass raw).
Proof.
  intros Hraw Hne Hpar Hpost.
  pose proof (first_pass_titled raw) as Htitled.
  split.
  - rewrite !grouped_sections_eq, Hraw.
    rewrite sections_of_app by reflexivity.
    f_equal. simpl.
    rewrite (collect_paragraphs_boundary _ _ Hpost).
    rewrite (collect_paragraphs_all _ Hpar).
    rewrite (sections_of_app _ _ Hpost), (sections_of_paragraphs _ Hpar).
    rewrite Hraw in Htitled.
    apply Forall_app in Htitled as [_ Htitled].
    apply Forall_inv in Htitled. simpl in Htitled.
    unfold saved, realized, title_truthy. simpl. rewrite Htitled.
    destruct paras; [congruence|reflexivity].
  - rewrite grouped_sections_eq. apply sections_of_count, Htitled.
Qed.

Lemma grouper_realizes_each_run_witness :
  grouped_sections (first_pass sample_elements)
  = grouped_sections [Heading "Overview" 1 0; Paragraph overview_paragraph 1]
    ++ {| title := Some "History"; level := 2;
          content := map elem_text [Paragraph history_paragraph 3] |}
    :: grouped_sections [Heading "See also" 3 4]
  /\ length (grouped_sections (first_pass sample_elements))
     = count_runs (first_pass sample_elements).
Proof.
  apply (grouper_realizes_each_run sample_elements
           [Heading "Overview" 1 0; Paragraph overview_paragraph 1]
           "History" 2 2 [Paragraph history_paragraph 3]
           [Heading "See also" 3 4]).
  - reflexivity.
  - discriminate.
  - repeat constructor.
  - reflexivity.
Defined.

Lemma collect_paragraphs_at_boundary post :
  at_boundary post -> collect_paragraphs post = [].
Proof. destruct post as [|[?|?] ?]; simpl; [reflexivity|reflexivity|discriminate]. Qed.

Lemma sections_of_bare_heading pre t lv i post :
  at_boundary post ->
  sections_of (pre ++ Heading t lv i :: post)
  = sections_of pre ++ sections_of post.
Proof.
  intros Hb. rewrite sections_of_app by reflexivity. f_equal.
  simpl. rewrite (collect_paragraphs_at_boundary _ Hb).
  unfold saved, realized. simpl. rewrite andb_false_r. reflexivity.
Qed.

(** C2: every section of [structured_content] has at least one paragraph;
    it stems from one heading of the classified sequence, with that
    heading's title and level, and its paragraphs are the run that directly
    follows that heading and nothing else.  A heading with no paragraph
    before the next heading or the end leaves no entry: the sections are
    those of what precedes it followed by those of what follows it. *)
Theorem structured_sections_have_paragraphs page :
  (forall l sec,
     r_structured_content (scrape_article_page page) = Some l ->
     In sec l ->
     content sec <> []
     /\ exists pre t lv i following,
          elements_data page = pre ++ Heading t lv i :: following
          /\ title sec = Some t
          /\ level sec = lv
          /\ content sec = collect_paragraphs following)
  /\ (forall pre t lv i post,
        elements_data page = pre ++ Heading t lv i :: post ->
        at_boundary post ->
        grouped_sections (elements_data page)
        = grouped_sections pre ++ grouped_sections post).
Proof.
  split.
  - intros l sec. rewrite scrape_structured. intros Hl Hin.
    apply or_none_some in Hl as [-> _].
    rewrite grouped_sections_eq in Hin.
    apply sections_of_origin in Hin
      as (pre & t & lv & i & following & Hed & -> & Hr).
    split.
    + unfold realized in Hr. apply andb_true_iff in Hr as [_ Hr].
      apply nonempty_true in Hr. exact Hr.
    + exists pre, t, lv, i, following. auto.
  - intros pre t lv i post Hed Hb.
    rewrite !grouped_sections_eq, Hed.
    apply sections_of_bare_heading, Hb.
Qed.

Lemma structured_sections_have_paragraphs_witness :
  (content {| title := Some "History"; level := 2;
              content := [history_paragraph] |} <> []
   /\ exists pre t lv i following,
        elements_data sample_page = pre ++ Heading t lv i :: following
        /\ title {| title := Some "History"; level := 2;
                    content := [history_paragraph] |} = Some t
        /\ level {| title := Some "History"; level := 2;
                    content := [history_paragraph] |} = lv
        /\ content {| title := Some "History"; level := 2;
                      content := [history_paragraph] |}
           = collect_paragraphs following)
  /\ grouped_sections (elements_data sample_page)
     = grouped_sections
         [ Heading "Overview" 1 0; Paragraph overview_paragraph 1;
           Heading "History" 2 2; Paragraph history_paragraph 3 ]
       ++ grouped_sections [].
Proof.
  destruct (structured_sections_have_paragraphs sample_page) as [Hin Hbare].
  split.
  - apply (Hin (grouped_sections (first_pass sample_elements))).
    + reflexivity.
    + right. left. reflexivity.
  - apply (Hbare _ "See also" 3 4); reflexivity.
Defined.

(** ** Claims on the assembled result *)

Lemma length_zero_nonempty {A} (l : list A) :
  Nat.eqb (length l) 0 = negb (nonempty l).
Proof. destruct l; reflexivity. Qed.

Lemma scrape_section_titles page :
  r_section_titles (scrape_article_page page) = or_none (section_titles_of page).
Proof.
  unfold scrape_article_page. cbv zeta.
  destruct (nonempty _ && _); reflexivity.
Qed.

Lemma scrape_content_text page :
  r_content_text (scrape_article_page page)
  = if formatter_runs page
    then format_content_with_sections (fallback_text page) (section_titles_of page)
    else fallback_text page.
Proof.
  unfold scrape_article_page, formatter_runs, section_titles_of, fallback_text,
    structured_text, grouped_text, grouped_sections.
  cbv zeta. rewrite length_zero_nonempty, orb_diag.
  destruct (nonempty _ && _); reflexivity.
Qed.

Lemma section_titles_of_cases page :
  section_titles_of page
  = if nonempty (grouped_sections (elements_data page)) then []
    else heading_titles page (page_title page).
Proof.
  unfold section_titles_of, extract_section_titles.
  rewrite length_zero_nonempty, orb_diag.
  destruct (nonempty _); reflexivity.
Qed.

(** C3: [structured_content] is present exactly when the grouper saved a
    section, and is then the grouper's list; [section_titles] is present
    exactly when the heading titles collected from the container are not
    empty and [structured_content] is absent, and is then that list. *)
Theorem structured_content_and_section_titles_presence page :
  (is_Some (r_structured_content (scrape_article_page page))
   <-> grouped_sections (elements_data page) <> [])
  /\ (forall l, r_structured_content (scrape_article_page page) = Some l ->
                l = grouped_sections (elements_data page))
  /\ (is_Some (r_section_titles (scrape_article_page page))
      <-> heading_titles page (page_title page) <> []
          /\ r_structured_content (scrape_article_page page) = None)
  /\ (forall l, r_section_titles (scrape_article_page page) = Some l ->
                l = heading_titles page (page_title page)).
Proof.
  rewrite scrape_structured, scrape_section_titles, section_titles_of_cases.
  destruct (grouped_sections (elements_data page)) as [|sec secs] eqn:Hs; simpl.
  - split; [|split; [|split]].
    + split; [intros [x Hx]; discriminate | congruence].
    + discriminate.
    + destruct (heading_titles page (page_title page)) as [|h hs]; simpl.
      * split; [intros [x Hx]; discriminate | intros [H _]; congruence].
      * split; [intros _; split; [discriminate|reflexivity] | intros _; eexists; reflexivity].
    + destruct (heading_titles page (page_title page)) as [|h hs]; simpl;
        [discriminate|].
      intros l [= <-]. reflexivity.
  - split; [|split; [|split]].
    + split; [discriminate | intros _; eexists; reflexivity].
    + intros l [= <-]. reflexivity.
    + split; [intros [x Hx]; discriminate | intros [_ H]; discriminate].
    + discriminate.
Qed.

(** The tokens of [split] are not empty and hold no whitespace. *)
Lemma split_tokens s :
  Forall (fun w => w <> "" /\ space_free w = true) (Py.split s).
Proof.
  induction s as [|c s IH]; [constructor|].
  cbn [Py.split]. destruct (Py.is_space c) eqn:Hc; [exact IH|].
  destruct s as [|d s].
  - repeat constructor; [discriminate|]. simpl. rewrite Hc. reflexivity.
  - destruct (Py.is_space d) eqn:Hd.
    + constructor; [|exact IH]. split; [discriminate|].
      simpl. rewrite Hc. reflexivity.
    + destruct (Py.split (String d s)) as [|w ws].
      * repeat constructor; [discriminate|]. simpl. rewrite Hc. reflexivity.
      * apply Forall_cons_iff in IH as [[_ Hw] Hws].
        constructor; [|exact Hws]. split; [discriminate|].
        simpl. rewrite Hc, Hw. reflexivity.
Qed.

(** C9: the reported [word_count] is the number of whitespace-delimited
    tokens of the returned [content_text] and [char_count] is its length;
    when the formatter ran, that text is the formatted one, so the counts
    taken before formatting are not the ones reported. *)
Theorem counts_match_final_content_text page :
  r_word_count (scrape_article_page page)
  = length (Py.split (r_content_text (scrape_article_page page)))
  /\ r_char_count (scrape_article_page page)
     = Py.len (r_content_text (scrape_article_page page))
  /\ r_content_text (scrape_article_page page)
     = if formatter_runs page
       then format_content_with_sections (fallback_text page) (section_titles_of page)
       else fallback_text page.
Proof.
  split; [|split; [|apply scrape_content_text]].
  - unfold scrape_article_page. cbv zeta.
    destruct (nonempty _ && _); reflexivity.
  - unfold scrape_article_page. cbv zeta.
    destruct (nonempty _ && _); reflexivity.
Qed.

(** C10: the result carries a [references_count] entry, and it is the
    number of entries of [references]. *)
Theorem references_count_is_length page :
  r_references_count (scrape_article_page page)
  = length (r_references (scrape_article_page page)).
Proof.
  unfold scrape_article_page. cbv zeta.
  destruct (nonempty _ && _); reflexivity.
Qed.

(** ** The delimiter block *)

Lemma join_empty_cons x l : Py.join "" (x :: l) = x +:+ Py.join "" l.
Proof.
  destruct l as [|y l]; simpl.
  - rewrite app_nil_r_str. reflexivity.
  - reflexivity.
Qed.

Create Rewrite HintDb pystr.
#[local] Hint Rewrite app_assoc_str app_cons_str app_nil_l_str app_nil_r_str
  : pystr.

(** Right-nested concatenations with the literals spelled out. *)
Ltac flatten_str := unfold NLNL, NL; autorewrite with pystr.

Lemma section_header_delimiter t : section_header t = delimiter_block t.
Proof.
  unfold section_header, delimiter_block, delimiter_lines, unlines.
  fold rule. flatten_str. reflexivity.
Qed.

Lemma section_parts_delimiter t lv paras :
  Py.join "" (section_parts {| title := Some t; level := lv; content := paras |})
  = delimiter_block t +:+ Py.join NLNL paras.
Proof.
  unfold section_parts, title_text. simpl title. simpl content.
  rewrite !join_empty_cons. simpl Py.join at 1.
  unfold delimiter_block, delimiter_lines, unlines.
  fold rule. flatten_str. reflexivity.
Qed.

Lemma split_nl_line s r :
  newline_free s = true ->
  Py.split_nl (s +:+ String Py.nl r) = s :: Py.split_nl r.
Proof.
  induction s as [|c s IH]; intros Hs.
  - reflexivity.
  - simpl in Hs. apply andb_true_iff in Hs as [Hc Hs].
    apply negb_true_iff in Hc.
    rewrite app_cons_str. cbn [Py.split_nl]. rewrite Hc, (IH Hs). reflexivity.
Qed.

Lemma split_nl_nl r : Py.split_nl (String Py.nl r) = "" :: Py.split_nl r.
Proof. reflexivity. Qed.

(** Read line by line, the delimiter block ends the running line, shows
    the five lines of the specification and leaves the next line open. *)
Lemma delimiter_block_lines t :
  newline_free t = true ->
  Py.split_nl (delimiter_block t) = "" :: delimiter_lines t ++ [""].
Proof.
  intros Ht. unfold delimiter_block, delimiter_lines, unlines.
  fold rule. flatten_str.
  assert (Hrule : newline_free rule = true) by reflexivity.
  rewrite !split_nl_nl.
  rewrite (split_nl_line rule _ Hrule), (split_nl_line t _ Ht).
  rewrite (split_nl_line rule _ Hrule), split_nl_nl.
  reflexivity.
Qed.

(** C6: the three delimiter strings the grouper appends before the
    paragraphs of a saved section, concatenated as [content_text] is, and
    the header the formatter appends for a matched line are one and the
    same string, the delimiter block: a blank line, a line of 70 [=], the
    title, a line of 70 [=] and a blank line. *)
Theorem grouper_and_formatter_share_delimiter t lv paras :
  Py.join "" (section_parts {| title := Some t; level := lv; content := paras |})
  = delimiter_block t +:+ Py.join NLNL paras
  /\ section_header t = delimiter_block t
  /\ Py.join "" (section_parts {| title := Some t; level := lv; content := paras |})
     = section_header t +:+ Py.join NLNL paras.
Proof.
  split; [apply section_parts_delimiter|].
  split; [apply section_header_delimiter|].
  rewrite section_header_delimiter. apply section_parts_delimiter.
Qed.

(** ** The fallback chain *)

Lemma rule_length : String.length rule = 70.
Proof. reflexivity. Qed.

Lemma section_parts_length sec l :
  100 <= String.length (Py.join "" (section_parts sec ++ l)).
Proof.
  unfold section_parts. simpl app. rewrite !join_empty_cons.
  rewrite !length_app_str, rule_length. unfold NLNL, NL. simpl. lia.
Qed.

(** The structured text is empty or clears the first threshold. *)
Lemma grouped_text_cases ed :
  (sections_of ed = [] /\ grouped_text ed = "")
  \/ 100 <= Py.len (grouped_text ed).
Proof.
  unfold grouped_text. rewrite all_text_parts_eq.
  destruct (sections_of ed) as [|sec secs]; [left; split; reflexivity|right].
  simpl. apply section_parts_length.
Qed.

Lemma insufficient_false n s :
  insufficient n s = false <-> (s <> "" /\ n <= Py.len s).
Proof.
  unfold insufficient. rewrite orb_false_iff, negb_false_iff, Nat.ltb_ge.
  destruct s; simpl; split; intros [H1 H2]; split; congruence || lia || auto.
Qed.

Lemma structured_text_insufficient page :
  insufficient 100 (structured_text page) = true ->
  structured_text page = "" /\ grouped_sections (elements_data page) = [].
Proof.
  unfold structured_text. intros Hins.
  destruct (grouped_text_cases (elements_data page)) as [[Hs Ht]|Hlen].
  - rewrite grouped_sections_eq. auto.
  - unfold insufficient in Hins.
    apply orb_true_iff in Hins as [Hins|Hins].
    + destruct (grouped_text (elements_data page)); simpl in *; [lia|discriminate].
    + apply Nat.ltb_lt in Hins. lia.
Qed.

Lemma paragraph_fallback_empty page :
  paragraph_fallback page "" = paragraph_list_text page.
Proof.
  unfold paragraph_fallback, paragraph_list_text. simpl.
  destruct (paragraph_texts page); reflexivity.
Qed.

(** Tier 1 is kept when it clears its threshold of 100 characters. *)
Lemma structured_tier_kept page :
  insufficient 100 (structured_text page) = false ->
  fallback_text page = structured_text page.
Proof.
  intros Hs. unfold fallback_text, fallback_chain, paragraph_fallback.
  fold (insufficient 100 (structured_text page)). rewrite Hs.
  unfold final_fallback. fold (insufficient 50 (structured_text page)).
  apply insufficient_false in Hs as [Hne Hlen].
  assert (insufficient 50 (structured_text page) = false) as ->; [|reflexivity].
  apply insufficient_false. split; [assumption|lia].
Qed.

(** Tier 2 is taken when tier 1 fails and its own text has 50 characters. *)
Lemma paragraph_tier_kept page :
  insufficient 100 (structured_text page) = true ->
  insufficient 50 (paragraph_list_text page) = false ->
  fallback_text page = paragraph_list_text page.
Proof.
  intros Hs Hp. destruct (structured_text_insufficient _ Hs) as [Hempty _].
  unfold fallback_text, fallback_chain. rewrite Hempty, paragraph_fallback_empty.
  unfold final_fallback. fold (insufficient 50 (paragraph_list_text page)).
  rewrite Hp. reflexivity.
Qed.

Lemma last_tier_taken page :
  insufficient 100 (structured_text page) = true ->
  insufficient 50 (paragraph_list_text page) = true ->
  fallback_text page = visible_text page.
Proof.
  intros Hs Hp. destruct (structured_text_insufficient _ Hs) as [Hempty _].
  unfold fallback_text, fallback_chain. rewrite Hempty, paragraph_fallback_empty.
  unfold final_fallback. fold (insufficient 50 (paragraph_list_text page)).
  rewrite Hp. reflexivity.
Qed.

Lemma raw_text_reaches_result page ct :
  insufficient 100 (structured_text page) = true ->
  fallback_text page = ct ->
  r_content_text (scrape_article_page page)
  = if nonempty (heading_titles page (page_title page))
    then format_content_with_sections ct (heading_titles page (page_title page))
    else ct.
Proof.
  intros Hs Hfb.
  destruct (structured_text_insufficient _ Hs) as [_ Hnone].
  rewrite scrape_content_text, Hfb.
  unfold formatter_runs. rewrite section_titles_of_cases, Hnone. simpl.
  rewrite andb_true_r. reflexivity.
Qed.

(** C5: the tiers are tried in order, each judged by its own threshold.
    A structured text of at least 100 characters is kept.  Otherwise the
    text of the paragraph list is taken when it has at least 50 characters.
    When the structured text is empty or shorter than 100 characters and
    the text of the paragraph list is empty or shorter than 50 characters,
    the chain ends with the container's raw text [ct] (the body text stands
    in only when the container's text cannot be read); the formatter, when
    it runs after the chain, works on that text. *)
Theorem fallback_tiers_in_order page :
  (insufficient 100 (structured_text page) = false ->
   fallback_text page = structured_text page)
  /\ (insufficient 100 (structured_text page) = true ->
      insufficient 50 (paragraph_list_text page) = false ->
      fallback_text page = paragraph_list_text page)
  /\ (insufficient 100 (structured_text page) = true ->
      insufficient 50 (paragraph_list_text page) = true ->
      (forall ct, container_text page = Some ct ->
         fallback_text page = ct
         /\ r_content_text (scrape_article_page page)
            = if nonempty (heading_titles page (page_title page))
              then format_content_with_sections ct
                     (heading_titles page (page_title page))
              else ct)
      /\ (container_text page = None ->
          fallback_text page = body_text page)).
Proof.
  split; [apply structured_tier_kept|].
  split; [apply paragraph_tier_kept|].
  intros Hs Hp.
  pose proof (last_tier_taken _ Hs Hp) as Hlast. unfold visible_text in Hlast.
  split.
  - intros ct Hct. rewrite Hct in Hlast.
    split; [exact Hlast|]. apply raw_text_reaches_result; assumption.
  - intros Hnone. rewrite Hnone in Hlast. exact Hlast.
Qed.

Lemma fallback_tiers_in_order_witness :
  fallback_text flat_page = "Intro" +:+ NL +:+ "History" +:+ NL +:+ "short"
  /\ r_content_text (scrape_article_page flat_page)
     = if nonempty (heading_titles flat_page (page_title flat_page))
       then format_content_with_sections
              ("Intro" +:+ NL +:+ "History" +:+ NL +:+ "short")
              (heading_titles flat_page (page_title flat_page))
       else "Intro" +:+ NL +:+ "History" +:+ NL +:+ "short".
Proof.
  apply (proj2 (proj2 (fallback_tiers_in_order flat_page))); reflexivity.
Defined.

(** ** The reference collector *)

Lemma filter_filter_and {A} (f g : A -> bool) l :
  List.filter f (List.filter g l) = List.filter (fun x => f x && g x) l.
Proof.
  induction l as [|x l IH]; [reflexivity|]. simpl.
  destruct (g x); simpl; rewrite ?andb_true_r, ?andb_false_r.
  - destruct (f x); rewrite IH; reflexivity.
  - exact IH.
Qed.

Lemma first_seen_In l u : In u (first_seen l) <-> In u l.
Proof.
  induction l as [|x l IH]; [reflexivity|]. simpl.
  rewrite filter_In, IH, negb_true_iff, String.eqb_neq.
  destruct (String.eqb_spec x u) as [->|Hne]; [tauto|].
  split; [tauto|]. intros [H|H]; [tauto|]. right. split; [assumption|congruence].
Qed.

Lemma first_seen_NoDup l : List.NoDup (first_seen l).
Proof.
  induction l as [|x l IH]; simpl; constructor.
  - rewrite filter_In, negb_true_iff, String.eqb_neq. tauto.
  - apply List.NoDup_filter, IH.
Qed.

Lemma firstn_In {A} n (l : list A) x : In x (firstn n l) -> In x l.
Proof.
  revert n. induction l as [|y l IH]; intros [|n]; simpl; try tauto.
  intros [H|H]; [left; exact H|right; exact (IH _ H)].
Qed.

Lemma NoDup_firstn {A} n (l : list A) : List.NoDup l -> List.NoDup (firstn n l).
Proof.
  intros H. revert n. induction H as [|x l Hx _ IH]; intros [|n]; simpl;
    try constructor; [|apply IH].
  intros Hin. apply Hx. eapply firstn_In, Hin.
Qed.

Lemma unseen_empty u : unseen ∅ u = true.
Proof. unfold unseen. rewrite bool_decide_eq_false_2; [reflexivity|set_solver]. Qed.

Lemma unseen_insert seen h u :
  unseen ({[h]} ∪ seen) u = unseen seen u && negb (String.eqb u h).
Proof.
  unfold unseen.
  destruct (String.eqb_spec u h) as [->|Hne]; simpl.
  - rewrite bool_decide_eq_true_2.
    + rewrite andb_false_r. reflexivity.
    + apply elem_of_union_l, elem_of_singleton. reflexivity.
  - rewrite andb_true_r. f_equal. apply bool_decide_ext.
    rewrite elem_of_union, elem_of_singleton. tauto.
Qed.

Lemma filter_all {A} (f : A -> bool) l :
  (forall x, f x = true) -> List.filter f l = l.
Proof.
  intros Hf. induction l as [|x l IH]; [reflexivity|].
  simpl. rewrite Hf, IH. reflexivity.
Qed.

(** The URLs kept: those already held, then the unseen outbound targets in
    first-seen order, as far as the cap of 100 allows. *)
Lemma collect_references_some h rest seen refs :
  collect_references (Some h :: rest) seen refs
  = if external h && unseen seen h then
      if Nat.leb 100 (length (refs ++ [{| number := length refs + 1; url := h |}]))
      then refs ++ [{| number := length refs + 1; url := h |}]
      else collect_references rest ({[h]} ∪ seen)
             (refs ++ [{| number := length refs + 1; url := h |}])
    else collect_references rest seen refs.
Proof. reflexivity. Qed.

Lemma collect_references_urls hrefs : forall seen refs,
  length refs < 100 ->
  map url (collect_references hrefs seen refs)
  = map url refs
    ++ firstn (100 - length refs)
         (List.filter (unseen seen) (first_seen (outbound hrefs))).
Proof.
  induction hrefs as [|[h|] rest IH]; intros seen refs Hlen.
  - simpl. rewrite firstn_nil, app_nil_r. reflexivity.
  - rewrite collect_references_some. cbn [outbound].
    destruct (external h) eqn:Hext; cbn [andb]; [|apply IH, Hlen].
    cbn [first_seen List.filter].
    destruct (unseen seen h) eqn:Hun.
    + rewrite length_app. cbn [length].
      destruct (Nat.leb_spec 100 (length refs + 1)) as [Hcap|Hcap].
      * replace (100 - length refs) with 1 by lia.
        rewrite map_app. reflexivity.
      * rewrite IH by (rewrite length_app; cbn [length]; lia).
        rewrite map_app, <- app_assoc, length_app. cbn [length map app url].
        replace (100 - length refs) with (S (100 - (length refs + 1))) by lia.
        rewrite firstn_cons. do 3 f_equal.
        rewrite filter_filter_and. apply List.filter_ext.
        intros u. apply unseen_insert.
    + rewrite IH by exact Hlen. do 2 f_equal.
      rewrite filter_filter_and. apply List.filter_ext_in.
      intros u _. destruct (String.eqb_spec u h) as [->|_]; cbn [negb].
      * rewrite Hun. reflexivity.
      * rewrite andb_true_r. reflexivity.
  - simpl. apply IH, Hlen.
Qed.

Lemma collect_references_numbers hrefs : forall seen refs,
  map number refs = seq 1 (length refs) ->
  map number (collect_references hrefs seen refs)
  = seq 1 (length (collect_references hrefs seen refs)).
Proof.
  induction hrefs as [|[h|] rest IH]; intros seen refs Hnum.
  - exact Hnum.
  - rewrite collect_references_some.
    assert (Hnum' :
      map number (refs ++ [{| number := length refs + 1; url := h |}])
      = seq 1 (length (refs ++ [{| number := length refs + 1; url := h |}]))).
    { rewrite map_app, length_app, Hnum. cbn [length map number].
      rewrite Nat.add_1_r, seq_S. reflexivity. }
    destruct (external h && unseen seen h); [|apply IH, Hnum].
    destruct (Nat.leb 100 _); [exact Hnum'|apply IH, Hnum'].
  - apply IH, Hnum.
Qed.

(** On link targets that are all outbound the filter keeps everything. *)
Lemma outbound_all urls :
  Forall (fun u => external u = true) urls ->
  outbound (map Some urls) = urls.
Proof.
  induction 1 as [|u urls Hu _ IH]; [reflexivity|].
  simpl. rewrite Hu, IH. reflexivity.
Qed.

(** C4: the references hold no URL twice, their numbers are 1, 2, 3, ... in
    list order, there are at most 100 of them, and their URLs are the first
    100 distinct outbound link targets in the order of their first
    occurrence. *)
Theorem references_distinct_numbered_capped hrefs :
  List.NoDup (map url (references_of hrefs))
  /\ map number (references_of hrefs) = seq 1 (length (references_of hrefs))
  /\ length (references_of hrefs) <= 100
  /\ map url (references_of hrefs) = firstn 100 (first_seen (outbound hrefs))
  /\ length (references_of hrefs)
     = Nat.min 100 (length (first_seen (outbound hrefs))).
Proof.
  assert (Hurls :
    map url (references_of hrefs) = firstn 100 (first_seen (outbound hrefs))).
  { unfold references_of. rewrite collect_references_urls by (simpl; lia).
    simpl. rewrite (filter_all _ _ unseen_empty). reflexivity. }
  assert (Hlen : length (references_of hrefs)
                 = Nat.min 100 (length (first_seen (outbound hrefs)))).
  { rewrite <- (length_map url), Hurls. apply length_firstn. }
  split; [rewrite Hurls; apply NoDup_firstn, first_seen_NoDup|].
  split; [apply collect_references_numbers; reflexivity|].
  split; [lia|]. split; assumption.
Qed.

(** ** The formatter, line by line *)

Lemma startswith_prefix s : forall p, Py.startswith s p = String.prefix p s.
Proof.
  induction s as [|b s IH]; intros [|a p]; simpl; try reflexivity.
  destruct (ascii_dec a b) as [->|Hne].
  - rewrite Ascii.eqb_refl. apply IH.
  - apply Ascii.eqb_neq in Hne. rewrite Hne. reflexivity.
Qed.

Lemma startswith_app s p : Py.startswith s p = true <-> exists r, s = p +:+ r.
Proof.
  revert s. induction p as [|a p IH]; intros s.
  - simpl. destruct s; (split; [intros _; eexists; reflexivity|reflexivity]).
  - destruct s as [|b s]; simpl.
    + split; [discriminate|]. intros [r Hr]. discriminate.
    + rewrite andb_true_iff, Ascii.eqb_eq, IH. split.
      * intros [-> [r ->]]. exists r. reflexivity.
      * intros [r Hr]. rewrite app_cons_str in Hr. injection Hr as -> ->.
        split; [reflexivity|]. exists r. reflexivity.
Qed.

Lemma match_titles_find line_stripped titles parts :
  match_titles line_stripped titles parts
  = match find (title_matches line_stripped) titles with
    | Some t => (parts ++ [section_header t], true)
    | None => (parts, false)
    end.
Proof.
  induction titles as [|t titles IH]; simpl; [reflexivity|].
  unfold title_matches at 1. rewrite <- startswith_prefix.
  destruct (String.eqb line_stripped t || Py.startswith line_stripped t);
    [reflexivity|exact IH].
Qed.

Lemma format_line_emitted titles parts line :
  format_line titles parts line = parts ++ emitted titles line.
Proof.
  unfold format_line, emitted. rewrite match_titles_find.
  destruct (find _ titles) as [t|]; simpl.
  - rewrite section_header_delimiter. reflexivity.
  - destruct (Py.truthy (Py.strip line)); [reflexivity|].
    rewrite app_nil_r. reflexivity.
Qed.

Lemma fold_format_line titles lines : forall parts,
  fold_left (format_line titles) lines parts
  = parts ++ concat (map (emitted titles) lines).
Proof.
  induction lines as [|line lines IH]; intros parts; simpl.
  - rewrite app_nil_r. reflexivity.
  - rewrite IH, format_line_emitted, <- app_assoc. reflexivity.
Qed.

Lemma format_lines_emitted titles lines :
  format_lines titles lines = concat (map (emitted titles) lines).
Proof. unfold format_lines. rewrite fold_format_line. reflexivity. Qed.

Lemma find_none_empty_line titles :
  ~ In "" titles -> find (title_matches "") titles = None.
Proof.
  induction titles as [|t titles IH]; simpl; [reflexivity|].
  intros Hnot. destruct t as [|a t]; [tauto|]. simpl. apply IH. tauto.
Qed.

Lemma emitted_empty_line titles : ~ In "" titles -> emitted titles "" = [].
Proof.
  intros Hnot. unfold emitted. change (Py.strip "") with "".
  rewrite (find_none_empty_line _ Hnot). reflexivity.
Qed.

(** C7: with a non-empty list of titles, the pieces the formatter builds
    are, line by line of the text, what the rule says: the delimiter block
    of the first title, in list order, that the trimmed line equals or
    starts with; otherwise the line itself, unchanged, when it is not empty
    after trimming; otherwise nothing.  The returned string is these pieces
    joined by newlines, with long newline runs collapsed.  (An empty text is
    returned before the loop; that is what the rule gives too, as long as
    the empty string is not among the titles.) *)
Theorem formatter_follows_line_rule text titles :
  titles <> [] ->
  format_lines titles (Py.split_nl text)
  = concat (map (emitted titles) (Py.split_nl text))
  /\ (forall parts line,
        format_line titles parts line = parts ++ emitted titles line)
  /\ format_content_with_sections text titles
     = (if Py.truthy text
        then re_sub_newlines
               (Py.join NL (concat (map (emitted titles) (Py.split_nl text))))
        else text)
  /\ (~ In "" titles ->
      format_content_with_sections text titles
      = re_sub_newlines
          (Py.join NL (concat (map (emitted titles) (Py.split_nl text))))).
Proof.
  intros Hne.
  assert (Hfun : format_content_with_sections text titles
     = (if Py.truthy text
        then re_sub_newlines
               (Py.join NL (concat (map (emitted titles) (Py.split_nl text))))
        else text)).
  { unfold format_content_with_sections.
    apply nonempty_true in Hne. rewrite Hne. cbn [negb orb].
    destruct (Py.truthy text); cbn [negb]; [|reflexivity].
    rewrite format_lines_emitted. reflexivity. }
  split; [apply format_lines_emitted|].
  split; [intros; apply format_line_emitted|].
  split; [exact Hfun|].
  intros Hnot. rewrite Hfun.
  destruct text as [|c text]; [|reflexivity]. cbn [Py.truthy].
  change (Py.split_nl "") with [""]. cbn [map concat].
  rewrite (emitted_empty_line _ Hnot). cbn [app Py.join].
  rewrite re_sub_newlines_equation_1. reflexivity.
Qed.

Lemma formatter_follows_line_rule_witness :
  format_lines ["Hist"; "History"]
    (Py.split_nl ("Intro" +:+ NL +:+ "History" +:+ NL +:+ "short"))
  = [ "Intro"; delimiter_block "Hist"; "short" ]
  /\ format_content_with_sections
       ("Intro" +:+ NL +:+ "History" +:+ NL +:+ "short") ["Hist"; "History"]
     = re_sub_newlines
         (Py.join NL
            (concat (map (emitted ["Hist"; "History"])
                       (Py.split_nl
                          ("Intro" +:+ NL +:+ "History" +:+ NL +:+ "short"))))).
Proof.
  destruct (formatter_follows_line_rule
              ("Intro" +:+ NL +:+ "History" +:+ NL +:+ "short")
              ["Hist"; "History"] ltac:(discriminate))
    as (Hpieces & _ & Hfun & _).
  split.
  - rewrite Hpieces. reflexivity.
  - exact Hfun.
Defined.

(** ** Collapsing newline runs *)

Lemma re_sub_newlines_cons c s :
  re_sub_newlines (String c s)
  = if Py.is_nl c && Nat.leb 3 (count_nl s)
    then NLNL +:+ re_sub_newlines (drop_nl s)
    else String c (re_sub_newlines s).
Proof. apply re_sub_newlines_equation_2. Qed.

Lemma drop_nl_length s : String.length (drop_nl s) <= String.length s.
Proof.
  induction s as [|c s IH]; simpl; [lia|].
  destruct (Py.is_nl c); simpl; lia.
Qed.

Lemma starts_nl_drop_nl s : starts_nl (drop_nl s) = false.
Proof.
  induction s as [|c s IH]; simpl; [reflexivity|].
  destruct (Py.is_nl c) eqn:Hc; [exact IH|]. simpl. exact Hc.
Qed.

Lemma re_sub_newlines_starts s :
  starts_nl s = false -> count_nl (re_sub_newlines s) = 0.
Proof.
  destruct s as [|c s]; simpl; intros Hc.
  - rewrite re_sub_newlines_equation_1. reflexivity.
  - rewrite re_sub_newlines_cons, Hc. simpl. rewrite Hc. reflexivity.
Qed.

(** Induction on the length of a string. *)
Lemma string_length_ind (P : string -> Prop) :
  (forall s, (forall r, String.length r < String.length s -> P r) -> P s) ->
  forall s, P s.
Proof.
  intros Hstep s.
  assert (H : forall n r, String.length r < n -> P r).
  { induction n as [|n IH]; intros r Hr; [lia|].
    apply Hstep. intros r' Hr'. apply IH. lia. }
  apply (H (S (String.length s))). lia.
Qed.

Lemma re_sub_newlines_count s :
  count_nl (re_sub_newlines s) <= count_nl s.
Proof.
  induction s as [s IH] using string_length_ind.
  destruct s as [|c s].
  - rewrite re_sub_newlines_equation_1. simpl. lia.
  - rewrite re_sub_newlines_cons.
    destruct (Py.is_nl c) eqn:Hc; cbn [andb].
    + destruct (Nat.leb_spec 3 (count_nl s)) as [Hrun|Hrun].
      * unfold NLNL. rewrite !app_cons_str, app_nil_l_str.
        change (Py.is_nl Py.nl) with true. simpl. rewrite Hc.
        change (Ascii.eqb Py.nl Py.nl) with true. cbn iota.
        rewrite (re_sub_newlines_starts _ (starts_nl_drop_nl s)). lia.
      * simpl. rewrite Hc. specialize (IH s). simpl in IH. lia.
    + simpl. rewrite Hc. lia.
Qed.

Lemma count_nl_nl s : count_nl (String Py.nl s) = S (count_nl s).
Proof. reflexivity. Qed.

Lemma re_sub_newlines_no_long_run s : no_long_run (re_sub_newlines s).
Proof.
  induction s as [s IH] using string_length_ind.
  destruct s as [|c s].
  - rewrite re_sub_newlines_equation_1. exact I.
  - rewrite re_sub_newlines_cons.
    destruct (Py.is_nl c && Nat.leb 3 (count_nl s)) eqn:Hcond.
    + unfold NLNL. rewrite !app_cons_str, app_nil_l_str.
      pose proof (re_sub_newlines_starts _ (starts_nl_drop_nl s)) as H0.
      cbn [no_long_run]. rewrite !count_nl_nl, H0.
      repeat split; try lia.
      apply IH. simpl. pose proof (drop_nl_length s). lia.
    + cbn [no_long_run]. split; [|apply IH; simpl; lia].
      pose proof (re_sub_newlines_count s) as Hle.
      cbn [count_nl]. destruct (Py.is_nl c) eqn:Hc; [|lia].
      cbn [andb] in Hcond. apply Nat.leb_gt in Hcond. lia.
Qed.

Lemma startswith_newlines n : forall s,
  Py.startswith s (Py.mul NL n) = Nat.leb n (count_nl s).
Proof.
  induction n as [|n IH]; intros s.
  - destruct s; reflexivity.
  - change (Py.mul NL (S n)) with (String Py.nl (Py.mul NL n)).
    destruct s as [|c s]; [reflexivity|].
    cbn [Py.startswith count_nl]. unfold Py.is_nl.
    rewrite (Ascii.eqb_sym Py.nl c).
    destruct (Ascii.eqb c Py.nl); [apply IH|reflexivity].
Qed.

Lemma startswith_four_nl s :
  Py.startswith s (Py.mul NL 4) = Nat.leb 4 (count_nl s).
Proof. apply startswith_newlines. Qed.

Lemma no_long_run_contains s :
  no_long_run s -> Py.contains s (Py.mul NL 4) = false.
Proof.
  induction s as [|c s IH].
  - intros _. reflexivity.
  - intros [Hc Hs]. cbn [Py.contains].
    rewrite startswith_four_nl, (IH Hs).
    apply Nat.leb_gt in Hc. rewrite Hc. reflexivity.
Qed.

Lemma contains_app s p a b : s = a +:+ p +:+ b -> Py.contains s p = true.
Proof.
  revert s. induction a as [|c a IH]; intros s ->.
  - rewrite app_nil_l_str.
    assert (H : Py.startswith (p +:+ b) p = true)
      by (apply startswith_app; eexists; reflexivity).
    destruct (p +:+ b); simpl in *; rewrite H; reflexivity.
  - rewrite app_cons_str. cbn [Py.contains].
    rewrite (IH _ eq_refl). apply orb_true_r.
Qed.

Lemma mul_nl_succ n : Py.mul NL (S n) = String Py.nl (Py.mul NL n).
Proof. reflexivity. Qed.

Lemma count_nl_mul n b : count_nl (Py.mul NL n +:+ b) = n + count_nl b.
Proof.
  induction n as [|n IH]; [reflexivity|].
  rewrite mul_nl_succ, app_cons_str, count_nl_nl, IH. reflexivity.
Qed.

Lemma drop_nl_mul n b : drop_nl (Py.mul NL n +:+ b) = drop_nl b.
Proof.
  induction n as [|n IH]; [reflexivity|].
  rewrite mul_nl_succ, app_cons_str. exact IH.
Qed.

Lemma drop_nl_starts b : starts_nl b = false -> drop_nl b = b.
Proof. destruct b as [|c b]; simpl; [reflexivity|]. intros ->. reflexivity. Qed.

Lemma ends_nl_cons c a : a <> "" -> ends_nl (String c a) = ends_nl a.
Proof. destruct a; [congruence|reflexivity]. Qed.

(** A non-empty string that does not end with a newline keeps its leading
    newlines to itself, whatever is appended. *)
Lemma leading_newlines_app a x :
  a <> "" -> ends_nl a = false ->
  count_nl (a +:+ x) = count_nl a
  /\ drop_nl (a +:+ x) = drop_nl a +:+ x
  /\ ends_nl (drop_nl a) = false.
Proof.
  induction a as [|c a IH]; [congruence|]. intros _ Hend.
  rewrite app_cons_str. cbn [count_nl drop_nl].
  destruct (Py.is_nl c) eqn:Hc.
  - destruct a as [|d a]; [simpl in Hend; congruence|].
    rewrite ends_nl_cons in Hend by discriminate.
    destruct (IH ltac:(discriminate) Hend) as (H1 & H2 & H3).
    rewrite H1, H2. auto.
  - rewrite app_cons_str. auto.
Qed.

(** A run of four or more newlines between a text that does not end with
    a newline and one that does not start with one is replaced by two. *)
Lemma re_sub_newlines_run a :
  ends_nl a = false ->
  forall k b, 4 <= k -> starts_nl b = false ->
  re_sub_newlines (a +:+ Py.mul NL k +:+ b)
  = re_sub_newlines a +:+ NLNL +:+ re_sub_newlines b.
Proof.
  induction a as [a IH] using string_length_ind.
  intros Hend k b Hk Hb.
  destruct a as [|c a].
  - rewrite app_nil_l_str, re_sub_newlines_equation_1, app_nil_l_str.
    destruct k as [|k]; [lia|].
    rewrite mul_nl_succ, app_cons_str, re_sub_newlines_cons.
    rewrite count_nl_mul, drop_nl_mul, (drop_nl_starts _ Hb).
    change (Py.is_nl Py.nl) with true. cbn [andb].
    destruct (Nat.leb_spec 3 (k + count_nl b)); [reflexivity|lia].
  - rewrite app_cons_str, !re_sub_newlines_cons.
    destruct a as [|d a].
    + simpl in Hend. rewrite Hend. cbn [andb].
      rewrite (IH "") by (simpl; auto; lia).
      rewrite re_sub_newlines_equation_1, app_cons_str. reflexivity.
    + rewrite ends_nl_cons in Hend by discriminate.
      destruct (leading_newlines_app (String d a) (Py.mul NL k +:+ b)
                  ltac:(discriminate) Hend) as (H1 & H2 & H3).
      rewrite H1, H2.
      destruct (Py.is_nl c && Nat.leb 3 (count_nl (String d a))).
      * rewrite IH; try assumption.
        -- rewrite !app_assoc_str. reflexivity.
        -- pose proof (drop_nl_length (String d a)). simpl in *. lia.
      * rewrite IH; try assumption.
        -- rewrite app_cons_str. reflexivity.
        -- simpl. lia.
Qed.

(** C8: with a non-empty title list, the string the formatter returns has
    no four newline characters in a row; a run of four or more in the
    joined pieces comes out as exactly two. *)
Theorem formatter_output_has_no_long_newline_run text titles :
  titles <> [] ->
  Py.contains (format_content_with_sections text titles) (Py.mul NL 4) = false
  /\ no_long_run (format_content_with_sections text titles)
  /\ (forall a b,
        format_content_with_sections text titles = a +:+ Py.mul NL 4 +:+ b ->
        False)
  /\ (forall a k b,
        text <> "" ->
        Py.join NL (format_lines titles (Py.split_nl text))
        = a +:+ Py.mul NL k +:+ b ->
        4 <= k -> ends_nl a = false -> starts_nl b = false ->
        format_content_with_sections text titles
        = re_sub_newlines a +:+ NLNL +:+ re_sub_newlines b).
Proof.
  intros Hne.
  assert (Hrun : no_long_run (format_content_with_sections text titles)).
  { unfold format_content_with_sections.
    apply nonempty_true in Hne. rewrite Hne. cbn [negb orb].
    destruct text as [|c text]; cbn [Py.truthy negb]; [exact I|].
    apply re_sub_newlines_no_long_run. }
  pose proof (no_long_run_contains _ Hrun) as Hcontains.
  split; [exact Hcontains|]. split; [exact Hrun|]. split.
  - intros a b Heq. apply contains_app in Heq. congruence.
  - intros a k b Htext Hjoin Hk Ha Hb.
    unfold format_content_with_sections.
    apply nonempty_true in Hne. rewrite Hne. cbn [negb orb].
    destruct text as [|c text]; [congruence|]. cbn [Py.truthy negb].
    rewrite Hjoin. apply re_sub_newlines_run; assumption.
Qed.

Lemma formatter_output_has_no_long_newline_run_witness :
  Py.contains
    (format_content_with_sections ("History" +:+ NL +:+ "History") ["History"])
    (Py.mul NL 4) = false
  /\ format_content_with_sections ("History" +:+ NL +:+ "History") ["History"]
     = re_sub_newlines (NLNL +:+ rule +:+ NL +:+ "History" +:+ NL +:+ rule)
       +:+ NLNL
       +:+ re_sub_newlines (rule +:+ NL +:+ "History" +:+ NL +:+ rule +:+ NLNL).
Proof.
  pose proof (formatter_output_has_no_long_newline_run
                ("History" +:+ NL +:+ "History") ["History"]
                ltac:(discriminate)) as (H1 & _ & _ & H4).
  split; [exact H1|].
  apply (H4 (NLNL +:+ rule +:+ NL +:+ "History" +:+ NL +:+ rule) 5
            (rule +:+ NL +:+ "History" +:+ NL +:+ rule +:+ NLNL)).
  - discriminate.
  - vm_compute. reflexivity.
  - lia.
  - vm_compute. reflexivity.
  - vm_compute. reflexivity.
Defined.

(** ** The examples of the specification *)

Example two_sections :
  r_structured_content (scrape_article_page sample_page)
  = Some [ {| title := Some "Overview"; level := 1;
              content := [overview_paragraph] |};
           {| title := Some "History"; level := 2;
              content := [history_paragraph] |} ]
  /\ r_section_titles (scrape_article_page sample_page) = None
  /\ map url (r_references (scrape_article_page sample_page))
     = ["https://example.org/a"; "https://example.org/c"].
Proof. repeat split; reflexivity. Qed.

Example short_paragraph_reaches_container_text :
  grouped_sections (elements_data flat_page) = []
  /\ paragraph_list_text flat_page = ""
  /\ fallback_text flat_page = "Intro" +:+ NL +:+ "History" +:+ NL +:+ "short"
  /\ r_section_titles (scrape_article_page flat_page) = Some ["History"].
Proof. repeat split; reflexivity. Qed.

Example title_line_replaced :
  format_content_with_sections
    ("Intro" +:+ NL +:+ "History" +:+ NL +:+ "   " +:+ NL +:+ "short") ["History"]
  = "Intro" +:+ NL +:+ delimiter_block "History" +:+ NL +:+ "short".
Proof. vm_compute. reflexivity. Qed.

Example one_hundred_of_150 :
  length (references_of many_links) = 100
  /\ map number (references_of many_links) = seq 1 100
  /\ map url (references_of many_links)
     = map (fun n => "https://example.org/" +:+ Py.mul "a" n) (seq 0 100).
Proof. vm_compute. repeat split; reflexivity. Qed.

(** * Further properties of the module *)

(** ** The first loop of [_scrape_article_page] *)

Lemma classify_facts idx element d :
  classify idx element = Some d ->
  elem_index d = idx
  /\ elem_text d = Py.strip (text element)
  /\ 3 <= Py.len (elem_text d)
  /\ match d with
     | Heading _ lv _ =>
         Py.startswith (Py.lower (tag_name element)) "h" = true
         /\ (exists c, Py.index (Py.lower (tag_name element)) 1 = Some c
                       /\ Py.int_of_char c = Some lv)
         /\ lv <= 9
     | Paragraph _ _ =>
         Py.lower (tag_name element) = "p" /\ 20 < Py.len (elem_text d)
     end.
Proof.
  unfold classify.
  destruct (Py.truthy (Py.strip (text element))) eqn:Ht; cbn [negb orb];
    [|discriminate].
  destruct (Nat.ltb_spec (Py.len (Py.strip (text element))) 3) as [|Hlen];
    [discriminate|].
  destruct (Py.startswith _ "h") eqn:Hh.
  - destruct (Py.index _ 1) as [c|] eqn:Hc; [|discriminate].
    destruct (Py.int_of_char c) as [lv|] eqn:Hlv; [|discriminate].
    intros [= <-]. cbn [elem_index elem_text].
    repeat split; try assumption; try reflexivity.
    + exists c. split; [reflexivity|assumption].
    + unfold Py.int_of_char in Hlv.
      destruct (Nat.leb 48 (nat_of_ascii c) && Nat.leb (nat_of_ascii c) 57) eqn:Hd;
        [|discriminate].
      apply andb_true_iff in Hd as [H1 H2].
      apply Nat.leb_le in H1, H2. injection Hlv as <-. lia.
  - destruct (String.eqb_spec (Py.lower (tag_name element)) "p") as [Hp|];
      cbn [andb]; [|discriminate].
    destruct (Nat.ltb_spec 20 (Py.len (Py.strip (text element)))) as [H20|];
      [|discriminate].
    intros [= <-]. cbn [elem_index elem_text]. repeat split; assumption || reflexivity.
Qed.

Lemma first_pass_from_In raw : forall k d,
  In d (first_pass_from k raw) <->
  exists element, k <= elem_index d
    /\ nth_error raw (elem_index d - k) = Some element
    /\ classify (elem_index d) element = Some d.
Proof.
  induction raw as [|e raw IH]; intros k d; cbn [first_pass_from].
  - split; [intros []|]. intros (element & _ & Hnth & _).
    destruct (elem_index d - k); discriminate.
  - assert (Hrest : In d (first_pass_from (S k) raw) <->
      exists element, k < elem_index d
        /\ nth_error (e :: raw) (elem_index d - k) = Some element
        /\ classify (elem_index d) element = Some d).
    { rewrite IH. split; intros (element & Hk & Hnth & Hc); exists element.
      - replace (elem_index d - k) with (S (elem_index d - S k)) by lia.
        repeat split; [lia|exact Hnth|exact Hc].
      - replace (elem_index d - k) with (S (elem_index d - S k)) in Hnth by lia.
        repeat split; [lia|exact Hnth|exact Hc]. }
    assert (Hhere : forall d', classify k e = Some d' ->
      (d' = d <-> exists element, k = elem_index d
        /\ nth_error (e :: raw) (elem_index d - k) = Some element
        /\ classify (elem_index d) element = Some d)).
    { intros d' Hd'. split.
      - intros <-. destruct (classify_facts _ _ _ Hd') as [Hi _].
        exists e. rewrite Hi, Nat.sub_diag. auto.
      - intros (element & Hk & Hnth & Hc). subst k.
        rewrite Nat.sub_diag in Hnth. injection Hnth as <-. congruence. }
    destruct (classify k e) as [d'|] eqn:Hc.
    + cbn [In]. rewrite Hrest, (Hhere d' eq_refl). split.
      * intros [(x & Hk & H)|(x & Hk & H)]; exists x; split; auto; lia.
      * intros (x & Hk & H).
        destruct (Nat.eq_dec k (elem_index d)) as [Heq|Hne];
          [left|right]; exists x; split; auto; lia.
    + rewrite Hrest. split.
      * intros (x & Hk & H). exists x. split; auto; lia.
      * intros (x & Hk & Hnth & Hcl).
        destruct (Nat.eq_dec k (elem_index d)) as [Heq|Hne].
        -- subst k. rewrite Nat.sub_diag in Hnth. injection Hnth as <-. congruence.
        -- exists x. repeat split; auto; lia.
Qed.

(** X1: every entry of [elements_data] comes from the element of
    [all_elements] at the position it records in [index]: its text is that
    element's stripped text and has at least 3 characters; a heading comes
    from a tag starting with [h] whose second character is the decimal
    digit kept as [level]; a paragraph comes from a [p] tag and has more
    than 20 characters. *)
Theorem classified_element_origin raw d :
  In d (first_pass raw) ->
  exists element,
    nth_error raw (elem_index d) = Some element
    /\ elem_text d = Py.strip (text element)
    /\ 3 <= Py.len (elem_text d)
    /\ match d with
       | Heading _ lv _ =>
           Py.startswith (Py.lower (tag_name element)) "h" = true
           /\ (exists c, Py.index (Py.lower (tag_name element)) 1 = Some c
                         /\ Py.int_of_char c = Some lv)
           /\ lv <= 9
       | Paragraph _ _ =>
           Py.lower (tag_name element) = "p" /\ 20 < Py.len (elem_text d)
       end.
Proof.
  intros Hin. apply first_pass_from_In in Hin as (element & _ & Hnth & Hc).
  rewrite Nat.sub_0_r in Hnth.
  destruct (classify_facts _ _ _ Hc) as (_ & Ht & Hlen & Hkind).
  exists element. auto.
Qed.

Lemma classified_element_origin_witness :
  exists element,
    nth_error sample_elements (elem_index (Heading "History" 2 2)) = Some element
    /\ elem_text (Heading "History" 2 2) = Py.strip (text element)
    /\ 3 <= Py.len (elem_text (Heading "History" 2 2))
    /\ (Py.startswith (Py.lower (tag_name element)) "h" = true
        /\ (exists c, Py.index (Py.lower (tag_name element)) 1 = Some c
                      /\ Py.int_of_char c = Some 2)
        /\ 2 <= 9).
Proof.
  apply (classified_element_origin sample_elements (Heading "History" 2 2)).
  right. right. left. reflexivity.
Defined.

(** X2: no qualifying element is dropped.  An element whose stripped text
    has at least 3 characters is kept as a heading when its tag starts
    with [h] followed by a decimal digit, and as a paragraph when its tag is
    [p] and the stripped text has more than 20 characters; the entry
    records the element's position. *)
Theorem qualifying_elements_are_kept raw i element :
  nth_error raw i = Some element ->
  3 <= Py.len (Py.strip (text element)) ->
  (forall c lv,
     Py.startswith (Py.lower (tag_name element)) "h" = true ->
     Py.index (Py.lower (tag_name element)) 1 = Some c ->
     Py.int_of_char c = Some lv ->
     In (Heading (Py.strip (text element)) lv i) (first_pass raw))
  /\ (Py.lower (tag_name element) = "p" ->
      20 < Py.len (Py.strip (text element)) ->
      In (Paragraph (Py.strip (text element)) i) (first_pass raw)).
Proof.
  intros Hnth Hlen.
  assert (Hgate : negb (Py.truthy (Py.strip (text element)))
                  || Nat.ltb (Py.len (Py.strip (text element))) 3 = false).
  { apply orb_false_iff. split.
    - destruct (Py.strip (text element)); simpl in *; [lia|reflexivity].
    - apply Nat.ltb_ge. exact Hlen. }
  split.
  - intros c lv Hh Hc Hlv. apply first_pass_from_In.
    exists element. cbn [elem_index]. rewrite Nat.sub_0_r.
    repeat split; [lia|exact Hnth|].
    unfold classify. rewrite Hgate, Hh, Hc, Hlv. reflexivity.
  - intros Hp H20. apply first_pass_from_In.
    exists element. cbn [elem_index]. rewrite Nat.sub_0_r.
    repeat split; [lia|exact Hnth|].
    unfold classify. rewrite Hgate, Hp.
    apply Nat.ltb_lt in H20. unfold Py.len in *. rewrite H20. reflexivity.
Qed.

Lemma qualifying_elements_are_kept_witness :
  (forall c lv,
     Py.startswith (Py.lower "H2") "h" = true ->
     Py.index (Py.lower "H2") 1 = Some c ->
     Py.int_of_char c = Some lv ->
     In (Heading (Py.strip "  History ") lv 1)
        (first_pass [ {| tag_name := "p"; text := "tiny" |};
                      {| tag_name := "H2"; text := "  History " |} ]))
  /\ (Py.lower "H2" = "p" ->
      20 < Py.len (Py.strip "  History ") ->
      In (Paragraph (Py.strip "  History ") 1)
         (first_pass [ {| tag_name := "p"; text := "tiny" |};
                       {| tag_name := "H2"; text := "  History " |} ])).
Proof.
  apply (qualifying_elements_are_kept
           [ {| tag_name := "p"; text := "tiny" |};
             {| tag_name := "H2"; text := "  History " |} ] 1
           {| tag_name := "H2"; text := "  History " |}).
  - reflexivity.
  - vm_compute. lia.
Defined.

Lemma first_pass_from_bounds raw : forall k,
  Forall (fun d => k <= elem_index d < k + length raw) (first_pass_from k raw)
  /\ increasing (map elem_index (first_pass_from k raw))
  /\ length (first_pass_from k raw) <= length raw.
Proof.
  induction raw as [|e raw IH]; intros k; cbn [first_pass_from length].
  - split; [constructor|split; [exact I|lia]].
  - destruct (IH (S k)) as (Hb & Hinc & Hlen).
    assert (Hb' : Forall (fun d => k <= elem_index d < k + S (length raw))
                         (first_pass_from (S k) raw)).
    { eapply List.Forall_impl; [|exact Hb]. simpl. intros d Hd. lia. }
    destruct (classify k e) as [d|] eqn:Hc.
    + destruct (classify_facts _ _ _ Hc) as [Hi _].
      split; [|split].
      * constructor; [lia|exact Hb'].
      * cbn [map increasing]. split; [|exact Hinc].
        apply List.Forall_map. eapply List.Forall_impl; [|exact Hb].
        simpl. intros d' Hd'. lia.
      * simpl. lia.
    + split; [exact Hb'|split; [exact Hinc|lia]].
Qed.

(** X3: the first loop keeps the document order and never invents
    entries: the recorded positions increase strictly along
    [elements_data], each lies inside [all_elements], and there are at most
    as many entries as elements. *)
Theorem first_pass_keeps_order raw :
  increasing (map elem_index (first_pass raw))
  /\ Forall (fun d => elem_index d < length raw) (first_pass raw)
  /\ length (first_pass raw) <= length raw.
Proof.
  destruct (first_pass_from_bounds raw 0) as (Hb & Hinc & Hlen).
  repeat split; [exact Hinc| |exact Hlen].
  eapply List.Forall_impl; [|exact Hb]. simpl. intros d Hd. lia.
Qed.

(** ** The second loop of [_scrape_article_page] *)

Lemma paragraph_texts_split following :
  paragraph_texts_of following
  = collect_paragraphs following
    ++ paragraph_texts_of (from_first_heading following).
Proof.
  unfold paragraph_texts_of.
  induction following as [|[t lv i|t i] following IH]; cbn; [reflexivity..|].
  rewrite IH. reflexivity.
Qed.

Lemma saved_content t lv paras :
  Py.truthy t = true ->
  concat (map content (saved {| title := Some t; level := lv; content := paras |}))
  = paras.
Proof.
  intros Ht. unfold saved, realized, title_truthy. cbn [title content].
  rewrite Ht. destruct paras; cbn; [reflexivity|].
  rewrite app_nil_r. reflexivity.
Qed.

Lemma sections_of_contents ed :
  Forall titled ed ->
  concat (map content (sections_of ed))
  = paragraph_texts_of (from_first_heading ed).
Proof.
  induction 1 as [|[t lv i|t i] ed He _ IH]; [reflexivity| |exact IH].
  cbn [sections_of from_first_heading]. simpl in He.
  rewrite map_app, concat_app, (saved_content _ _ _ He), IH.
  unfold paragraph_texts_of at 2. cbn [List.filter is_paragraph].
  fold (paragraph_texts_of ed). symmetry. apply paragraph_texts_split.
Qed.

(** X4: no paragraph behind the first heading is lost, repeated or moved:
    the paragraph lists of the saved sections, one after the other, are
    the paragraphs of the classified sequence from its first heading on, in
    their order.  Paragraphs in front of the first heading belong to no
    section. *)
Theorem paragraphs_behind_first_heading_are_kept raw :
  concat (map content (grouped_sections (first_pass raw)))
  = paragraph_texts_of (from_first_heading (first_pass raw)).
Proof.
  rewrite grouped_sections_eq.
  apply sections_of_contents, first_pass_titled.
Qed.

Lemma join_empty_app l1 l2 :
  Py.join "" (l1 ++ l2) = Py.join "" l1 +:+ Py.join "" l2.
Proof.
  induction l1 as [|x l1 IH]; [reflexivity|].
  rewrite <- app_comm_cons, !join_empty_cons, IH, app_assoc_str. reflexivity.
Qed.

Lemma grouped_text_app pre post :
  at_boundary post ->
  grouped_text (pre ++ post) = grouped_text pre +:+ grouped_text post.
Proof.
  intros Hb. unfold grouped_text. rewrite !all_text_parts_eq.
  rewrite (sections_of_app _ _ Hb), map_app, concat_app.
  apply join_empty_app.
Qed.

(** X5: grouping works part by part.  Cut the classified sequence in
    front of any heading: the saved sections of the whole are those of the
    first part followed by those of the second, and the flat text is the
    concatenation of the two flat texts. *)
Theorem grouping_splits_at_headings pre post :
  at_boundary post ->
  grouped_sections (pre ++ post) = grouped_sections pre ++ grouped_sections post
  /\ grouped_text (pre ++ post) = grouped_text pre +:+ grouped_text post.
Proof.
  intros Hb. split.
  - rewrite !grouped_sections_eq. apply sections_of_app, Hb.
  - apply grouped_text_app, Hb.
Qed.

Lemma grouping_splits_at_headings_witness :
  grouped_sections
    ([Paragraph overview_paragraph 0; Heading "Overview" 1 1;
      Paragraph overview_paragraph 2]
     ++ [Heading "History" 2 3; Paragraph history_paragraph 4])
  = grouped_sections
      [Paragraph overview_paragraph 0; Heading "Overview" 1 1;
       Paragraph overview_paragraph 2]
    ++ grouped_sections [Heading "History" 2 3; Paragraph history_paragraph 4]
  /\ grouped_text
       ([Paragraph overview_paragraph 0; Heading "Overview" 1 1;
         Paragraph overview_paragraph 2]
        ++ [Heading "History" 2 3; Paragraph history_paragraph 4])
     = grouped_text
         [Paragraph overview_paragraph 0; Heading "Overview" 1 1;
          Paragraph overview_paragraph 2]
       +:+ grouped_text [Heading "History" 2 3; Paragraph history_paragraph 4].
Proof.
  apply (grouping_splits_at_headings
           [Paragraph overview_paragraph 0; Heading "Overview" 1 1;
            Paragraph overview_paragraph 2]
           [Heading "History" 2 3; Paragraph history_paragraph 4]).
  reflexivity.
Defined.

Lemma save_section_counts st :
  section_count (save_section st)
  = section_count st + length (saved (current_section st))
  /\ paragraph_count (save_section st) = paragraph_count st.
Proof.
  unfold save_section, saved, realized.
  destruct (title_truthy _ && nonempty _); cbn; split; lia.
Qed.

Lemma group_from_counts ed : forall st,
  section_count (group_from st ed)
  = section_count st + length (saved (current_section st) ++ sections_of ed)
  /\ paragraph_count (group_from st ed)
     = paragraph_count st
       + length (paragraph_texts_of (from_first_heading ed)).
Proof.
  unfold group_from.
  induction ed as [|[t lv i|t i] ed IH]; intros st.
  - cbn [second_pass sections_of from_first_heading].
    destruct (save_section_counts st) as [Hs Hp].
    rewrite Hs, Hp, app_nil_r. cbn. split; lia.
  - cbn [second_pass sections_of from_first_heading].
    destruct (IH
      {| current_section :=
           {| title := Some t; level := lv; content := collect_paragraphs ed |};
         structured_content := structured_content (save_section st);
         all_text_parts := all_text_parts (save_section st);
         section_count := section_count (save_section st);
         paragraph_count :=
           paragraph_count (save_section st) + length (collect_paragraphs ed) |})
      as [Hs Hp].
    destruct (save_section_counts st) as [Hs0 Hp0].
    rewrite Hs, Hp. cbn [section_count paragraph_count current_section].
    rewrite Hs0, Hp0, !length_app. split; [lia|].
    unfold paragraph_texts_of at 2. cbn [List.filter is_paragraph].
    fold (paragraph_texts_of ed).
    rewrite (paragraph_texts_split ed), length_app. lia.
  - cbn [second_pass sections_of from_first_heading]. apply IH.
Qed.

(** X6: the two counters the loop keeps for its log line are right:
    [section_count] is the number of saved sections and [paragraph_count]
    the number of paragraphs in them. *)
Theorem counters_match_structured_content raw :
  section_count (group (first_pass raw))
  = length (grouped_sections (first_pass raw))
  /\ paragraph_count (group (first_pass raw))
     = length (concat (map content (grouped_sections (first_pass raw)))).
Proof.
  destruct (group_from_counts (first_pass raw) initial_state) as [Hs Hp].
  fold (group (first_pass raw)) in Hs, Hp.
  split.
  - rewrite Hs, grouped_sections_eq. reflexivity.
  - rewrite Hp, grouped_sections_eq.
    rewrite (sections_of_contents _ (first_pass_titled raw)). reflexivity.
Qed.

Lemma section_parts_render sec :
  Py.join "" (section_parts sec) = render_section sec.
Proof.
  unfold section_parts, render_section.
  rewrite !join_empty_cons. simpl Py.join at 1.
  unfold delimiter_block, delimiter_lines, unlines.
  fold rule. flatten_str. reflexivity.
Qed.

Lemma section_parts_render_all secs :
  Py.join "" (concat (map section_parts secs)) = render_sections secs.
Proof.
  unfold render_sections.
  induction secs as [|sec secs IH]; [reflexivity|].
  cbn [map concat]. rewrite join_empty_app, IH, section_parts_render.
  rewrite join_empty_cons. reflexivity.
Qed.

Lemma structured_text_renders_sections_aux page :
  structured_text page = render_sections (grouped_sections (elements_data page)).
Proof.
  unfold structured_text, grouped_text.
  rewrite all_text_parts_eq, grouped_sections_eq.
  apply section_parts_render_all.
Qed.

(** X7: the flat text of the structured tier is, section by section in
    list order, the delimiter block with the section's title followed by the
    section's paragraphs joined by blank lines, with nothing between two
    sections. *)
Theorem structured_text_renders_sections ed :
  grouped_text ed = render_sections (grouped_sections ed).
Proof.
  unfold grouped_text. rewrite all_text_parts_eq, grouped_sections_eq.
  apply section_parts_render_all.
Qed.

Lemma scrape_counts page :
  r_word_count (scrape_article_page page)
  = length (Py.split (r_content_text (scrape_article_page page)))
  /\ r_char_count (scrape_article_page page)
     = Py.len (r_content_text (scrape_article_page page)).
Proof.
  unfold scrape_article_page. cbv zeta.
  destruct (nonempty _ && _); split; reflexivity.
Qed.

(** X8: when the result carries [structured_content], it carries no
    [section_titles], and its [content_text] is the rendering of exactly
    those sections: neither a fallback tier nor the formatter has touched
    it.  It has at least 100 characters. *)
Theorem structured_result_is_rendered page l :
  r_structured_content (scrape_article_page page) = Some l ->
  r_section_titles (scrape_article_page page) = None
  /\ r_content_text (scrape_article_page page) = render_sections l
  /\ 100 <= r_char_count (scrape_article_page page).
Proof.
  rewrite scrape_structured. intros Hl.
  apply or_none_some in Hl as [-> Hne].
  assert (Hlen : 100 <= Py.len (structured_text page)).
  { unfold structured_text.
    destruct (grouped_text_cases (elements_data page)) as [[Hs _]|Hlen];
      [|exact Hlen].
    rewrite grouped_sections_eq in Hne. congruence. }
  assert (Hsuff : insufficient 100 (structured_text page) = false).
  { apply insufficient_false. split; [|exact Hlen].
    intros Hempty. rewrite Hempty in Hlen. simpl in Hlen. lia. }
  assert (Htext : r_content_text (scrape_article_page page) = structured_text page).
  { rewrite scrape_content_text. unfold formatter_runs.
    apply nonempty_true in Hne. rewrite Hne, andb_false_r.
    apply structured_tier_kept, Hsuff. }
  split; [|split].
  - rewrite scrape_section_titles, section_titles_of_cases.
    apply nonempty_true in Hne. rewrite Hne. reflexivity.
  - rewrite Htext. apply structured_text_renders_sections_aux.
  - destruct (scrape_counts page) as [_ ->]. rewrite Htext. exact Hlen.
Qed.

Lemma structured_result_is_rendered_witness :
  r_section_titles (scrape_article_page sample_page) = None
  /\ r_content_text (scrape_article_page sample_page)
     = render_sections
         [ {| title := Some "Overview"; level := 1;
              content := [overview_paragraph] |};
           {| title := Some "History"; level := 2;
              content := [history_paragraph] |} ]
  /\ 100 <= r_char_count (scrape_article_page sample_page).
Proof.
  apply (structured_result_is_rendered sample_page). reflexivity.
Defined.

Lemma selected_heading_level element c lv :
  selected_tag element = true ->
  Py.startswith (Py.lower (tag_name element)) "h" = true ->
  Py.index (Py.lower (tag_name element)) 1 = Some c ->
  Py.int_of_char c = Some lv ->
  1 <= lv <= 6.
Proof.
  unfold selected_tag. cbn [existsb]. rewrite orb_false_r.
  intros Hsel Hh Hc Hlv.
  repeat (apply orb_true_iff in Hsel as [Hsel|Hsel]);
    apply String.eqb_eq in Hsel; rewrite Hsel in Hh, Hc;
    try discriminate Hh;
    vm_compute in Hc; injection Hc as <-;
    vm_compute in Hlv; injection Hlv as <-; lia.
Qed.

(** X9: when every element the driver hands over has one of the tags the
    selector names ([h1] to [h6] and [p], in either case), every section of
    [structured_content] has a level between 1 and 6. *)
Theorem section_levels_are_heading_ranks page l sec :
  Forall (fun element => selected_tag element = true) (all_elements page) ->
  r_structured_content (scrape_article_page page) = Some l ->
  In sec l ->
  1 <= level sec <= 6.
Proof.
  intros Htags. rewrite scrape_structured. intros Hl Hin.
  apply or_none_some in Hl as [-> _].
  rewrite grouped_sections_eq in Hin.
  apply sections_of_origin in Hin
    as (pre & t & lv & i & following & Hed & -> & _).
  cbn [level].
  assert (Hd : In (Heading t lv i) (first_pass (all_elements page))).
  { fold (elements_data page). rewrite Hed. apply in_elt. }
  apply first_pass_from_In in Hd as (element & _ & Hnth & Hc).
  destruct (classify_facts _ _ _ Hc) as (_ & _ & _ & Hh & (c & Hidx & Hlv) & _).
  apply nth_error_In in Hnth.
  rewrite List.Forall_forall in Htags.
  exact (selected_heading_level _ _ _ (Htags _ Hnth) Hh Hidx Hlv).
Qed.

Lemma section_levels_are_heading_ranks_witness :
  1 <= level {| title := Some "History"; level := 2;
                content := [history_paragraph] |} <= 6.
Proof.
  apply (section_levels_are_heading_ranks sample_page
           (grouped_sections (first_pass sample_elements))).
  - repeat constructor.
  - reflexivity.
  - right. left. reflexivity.
Defined.

(** ** The document title and the heading titles *)

Lemma lstrip_head s :
  match Py.lstrip s with
  | EmptyString => True
  | String c _ => Py.is_space c = false
  end.
Proof.
  induction s as [|c s IH]; cbn [Py.lstrip]; [exact I|].
  destruct (Py.is_space c) eqn:Hc; [exact IH|exact Hc].
Qed.

Lemma rstrip_head c s :
  Py.is_space c = false ->
  exists r, Py.rstrip (String c s) = String c r.
Proof.
  intros Hc. cbn [Py.rstrip]. rewrite Hc.
  destruct (Py.rstrip s); eexists; reflexivity.
Qed.

Lemma rstrip_idempotent s : Py.rstrip (Py.rstrip s) = Py.rstrip s.
Proof.
  induction s as [|c s IH]; [reflexivity|].
  cbn [Py.rstrip]. destruct (Py.rstrip s) as [|d r] eqn:Hr.
  - destruct (Py.is_space c) eqn:Hc; [reflexivity|].
    cbn [Py.rstrip]. rewrite Hc. reflexivity.
  - cbn [Py.rstrip] in IH |- *. rewrite IH. reflexivity.
Qed.

Lemma strip_head s :
  match Py.strip s with
  | EmptyString => True
  | String c _ => Py.is_space c = false
  end.
Proof.
  unfold Py.strip. pose proof (lstrip_head s) as Hl.
  destruct (Py.lstrip s) as [|c r]; [exact I|].
  destruct (rstrip_head c r Hl) as [r' ->]. exact Hl.
Qed.

Lemma strip_idempotent s : Py.strip (Py.strip s) = Py.strip s.
Proof.
  pose proof (strip_head s) as Hh. unfold Py.strip in *.
  destruct (Py.rstrip (Py.lstrip s)) as [|c r] eqn:Hs; [reflexivity|].
  cbn [Py.lstrip]. rewrite Hh, <- Hs. apply rstrip_idempotent.
Qed.

Lemma find_title_cases title_elements :
  Py.truthy (find_title title_elements) = true
  /\ Py.strip (find_title title_elements) = find_title title_elements
  /\ (find_title title_elements = "Title not found"
      \/ exists t, In (Some t) title_elements
                   /\ find_title title_elements = Py.strip t).
Proof.
  induction title_elements as [|[t|] rest IH]; cbn [find_title].
  - split; [reflexivity|]. split; [reflexivity|]. left. reflexivity.
  - destruct (Py.truthy (Py.strip t)) eqn:Ht.
    + split; [exact Ht|]. split; [apply strip_idempotent|].
      right. exists t. split; [left|]; reflexivity.
    + destruct IH as (H1 & H2 & [H3|(t' & Hin & H3)]);
        (split; [exact H1|]); (split; [exact H2|]); [left; exact H3|].
      right. exists t'. split; [right; exact Hin|exact H3].
  - destruct IH as (H1 & H2 & [H3|(t' & Hin & H3)]);
      (split; [exact H1|]); (split; [exact H2|]); [left; exact H3|].
    right. exists t'. split; [right; exact Hin|exact H3].
Qed.

(** X10: the document title is never empty and has no whitespace at
    either end.  It is the stripped text of the [h1] element when that is
    not blank; in any case it is the stripped text of one of the three
    title elements or the fixed text ["Title not found"], which it is when
    all three are missing or blank. *)
Theorem page_title_is_clean page :
  Py.truthy (page_title page) = true
  /\ Py.strip (page_title page) = page_title page
  /\ (page_title page = "Title not found"
      \/ exists t, In (Some t) [h1_text page; h1_text3xl_text page; h1_bold_text page]
                   /\ page_title page = Py.strip t)
  /\ (forall t, h1_text page = Some t -> Py.truthy (Py.strip t) = true ->
                page_title page = Py.strip t)
  /\ ((forall t, In (Some t) [h1_text page; h1_text3xl_text page; h1_bold_text page] ->
                 Py.truthy (Py.strip t) = false) ->
      page_title page = "Title not found").
Proof.
  unfold page_title.
  destruct (find_title_cases [h1_text page; h1_text3xl_text page; h1_bold_text page])
    as (H1 & H2 & H3).
  split; [exact H1|]. split; [exact H2|]. split; [exact H3|]. split.
  - intros t Ht Hnb. cbn [find_title]. rewrite Ht, Hnb. reflexivity.
  - intros Hblank. destruct H3 as [H3|(t & Hin & H3)]; [exact H3|].
    rewrite H3 in H1. rewrite (Hblank t Hin) in H1. discriminate.
Qed.

Lemma heading_titles_facts page doc_title t :
  In t (heading_titles page doc_title) ->
  3 <= Py.len t
  /\ t <> doc_title
  /\ Py.strip t = t
  /\ exists h, In h (container_headings page) /\ t = Py.strip h.
Proof.
  unfold heading_titles. rewrite filter_In, in_map_iff.
  intros [(h & <- & Hh) Hcond].
  apply andb_true_iff in Hcond as [Hcond Hne].
  apply andb_true_iff in Hcond as [_ Hlen].
  apply Nat.ltb_lt in Hlen. apply negb_true_iff, String.eqb_neq in Hne.
  split; [lia|]. split; [exact Hne|]. split; [apply strip_idempotent|].
  exists h. split; [exact Hh|reflexivity].
Qed.

(** X11: every entry of the returned [section_titles] is the stripped text
    of a heading of the container, has at least 3 characters, differs from
    the document title and has no whitespace at either end; and the list is
    only returned when no section was saved. *)
Theorem section_titles_are_clean page l t :
  r_section_titles (scrape_article_page page) = Some l ->
  In t l ->
  3 <= Py.len t
  /\ t <> r_title (scrape_article_page page)
  /\ Py.strip t = t
  /\ (exists h, In h (container_headings page) /\ t = Py.strip h)
  /\ grouped_sections (elements_data page) = [].
Proof.
  rewrite scrape_section_titles, section_titles_of_cases.
  assert (Htitle : r_title (scrape_article_page page) = page_title page).
  { unfold scrape_article_page. cbv zeta.
    destruct (nonempty _ && _); reflexivity. }
  rewrite Htitle.
  destruct (grouped_sections (elements_data page)) as [|sec secs];
    cbn [nonempty]; [|discriminate].
  intros Hl Hin. apply or_none_some in Hl as [-> _].
  destruct (heading_titles_facts _ _ _ Hin) as (H1 & H2 & H3 & H4).
  auto.
Qed.

Lemma section_titles_are_clean_witness :
  3 <= Py.len "History"
  /\ "History" <> r_title (scrape_article_page flat_page)
  /\ Py.strip "History" = "History"
  /\ (exists h, In h (container_headings flat_page) /\ "History" = Py.strip h)
  /\ grouped_sections (elements_data flat_page) = [].
Proof.
  apply (section_titles_are_clean flat_page ["History"]).
  - reflexivity.
  - left. reflexivity.
Defined.

Lemma heading_titles_not_empty page doc_title :
  ~ In "" (heading_titles page doc_title).
Proof.
  intros Hin. destruct (heading_titles_facts _ _ _ Hin) as [Hlen _].
  simpl in Hlen. lia.
Qed.

Lemma format_by_rule text titles :
  titles <> [] -> ~ In "" titles ->
  format_content_with_sections text titles
  = re_sub_newlines
      (Py.join NL (concat (map (emitted titles) (Py.split_nl text)))).
Proof.
  intros Hne Hnot. unfold format_content_with_sections.
  apply nonempty_true in Hne. rewrite Hne. cbn [negb orb].
  destruct text as [|c text]; cbn [Py.truthy negb].
  - change (Py.split_nl "") with [""]. cbn [map concat].
    rewrite (emitted_empty_line _ Hnot). cbn [app Py.join].
    rewrite re_sub_newlines_equation_1. reflexivity.
  - rewrite format_lines_emitted. reflexivity.
Qed.

(** X12: whenever the result carries [section_titles], its [content_text]
    is the text of the fallback chain with every line treated by the
    formatter's rule against exactly those titles, joined by newlines and
    with long newline runs collapsed.  The formatter's early return for an
    empty text makes no difference here, because no collected title is
    empty. *)
Theorem titled_result_is_formatted page titles :
  r_section_titles (scrape_article_page page) = Some titles ->
  r_content_text (scrape_article_page page)
  = re_sub_newlines
      (Py.join NL
         (concat (map (emitted titles) (Py.split_nl (fallback_text page))))).
Proof.
  rewrite scrape_section_titles. intros Hl.
  apply or_none_some in Hl as [-> Hne].
  rewrite scrape_content_text. unfold formatter_runs.
  assert (Hnone : nonempty (grouped_sections (elements_data page)) = false).
  { rewrite section_titles_of_cases in Hne.
    destruct (nonempty (grouped_sections (elements_data page)));
      [congruence|reflexivity]. }
  rewrite Hnone. apply nonempty_true in Hne as Hne'. rewrite Hne'. cbn [negb andb].
  apply format_by_rule; [exact Hne|].
  rewrite section_titles_of_cases, Hnone. apply heading_titles_not_empty.
Qed.

Lemma titled_result_is_formatted_witness :
  r_content_text (scrape_article_page flat_page)
  = re_sub_newlines
      (Py.join NL
         (concat (map (emitted ["History"])
                    (Py.split_nl (fallback_text flat_page))))).
Proof.
  apply (titled_result_is_formatted flat_page ["History"]). reflexivity.
Defined.

(** ** [format_content_with_sections] on lines without a title *)

Lemma split_nl_newline_free s :
  Forall (fun line => newline_free line = true) (Py.split_nl s).
Proof.
  induction s as [|c s IH]; cbn [Py.split_nl].
  - repeat constructor.
  - destruct (Py.is_nl c) eqn:Hc; [constructor; [reflexivity|exact IH]|].
    destruct (Py.split_nl s) as [|w ws].
    + repeat constructor. cbn. rewrite Hc. reflexivity.
    + apply Forall_cons_iff in IH as [Hw Hws].
      constructor; [|exact Hws]. cbn. rewrite Hc, Hw. reflexivity.
Qed.

Lemma join_split_nl s : Py.join NL (Py.split_nl s) = s.
Proof.
  induction s as [|c s IH]; [reflexivity|].
  cbn [Py.split_nl]. destruct (Py.is_nl c) eqn:Hc.
  - apply Ascii.eqb_eq in Hc. subst c.
    destruct (Py.split_nl s) as [|w ws] eqn:Hs.
    + destruct s; cbn in Hs; [discriminate|].
      destruct (Py.is_nl a); [discriminate|].
      destruct (Py.split_nl s); discriminate.
    + cbn [Py.join] in IH |- *. rewrite IH. reflexivity.
  - destruct (Py.split_nl s) as [|w ws] eqn:Hs.
    + cbn in IH. subst s. reflexivity.
    + rewrite <- IH. destruct ws; reflexivity.
Qed.

Lemma re_sub_newlines_fixed s : no_long_run s -> re_sub_newlines s = s.
Proof.
  induction s as [|c s IH]; intros Hrun.
  - apply re_sub_newlines_equation_1.
  - destruct Hrun as [Hc Hs]. rewrite re_sub_newlines_cons, (IH Hs).
    cbn [count_nl] in Hc. destruct (Py.is_nl c); [|reflexivity].
    destruct (Nat.leb_spec 3 (count_nl s)); [lia|reflexivity].
Qed.

Lemma newline_free_no_long_run x : newline_free x = true -> no_long_run x.
Proof.
  induction x as [|c x IH]; [intros _; exact I|].
  cbn [newline_free no_long_run count_nl]. intros H.
  apply andb_true_iff in H as [Hc Hx]. apply negb_true_iff in Hc.
  rewrite Hc. split; [lia|exact (IH Hx)].
Qed.

Lemma line_then_newline_no_long_run x rest :
  newline_free x = true -> no_long_run rest -> count_nl rest <= 2 ->
  no_long_run (x +:+ String Py.nl rest).
Proof.
  intros Hx Hrest Hcount. induction x as [|c x IH].
  - rewrite app_nil_l_str. cbn [no_long_run]. rewrite count_nl_nl.
    split; [lia|exact Hrest].
  - cbn [newline_free] in Hx. apply andb_true_iff in Hx as [Hc Hx].
    apply negb_true_iff in Hc. rewrite app_cons_str.
    cbn [no_long_run count_nl]. rewrite Hc. split; [lia|exact (IH Hx)].
Qed.

Lemma count_nl_line x rest :
  newline_free x = true -> Py.truthy x = true -> count_nl (x +:+ rest) = 0.
Proof.
  destruct x as [|c x]; [discriminate|]. cbn [newline_free]. intros H _.
  apply andb_true_iff in H as [Hc _]. apply negb_true_iff in Hc.
  rewrite app_cons_str. cbn [count_nl]. rewrite Hc. reflexivity.
Qed.

Lemma joined_lines_no_long_run lines :
  Forall (fun line => newline_free line = true /\ Py.truthy line = true) lines ->
  no_long_run (Py.join NL lines) /\ count_nl (Py.join NL lines) = 0.
Proof.
  induction 1 as [|x lines [Hx Ht] Hlines IH]; [split; [exact I|reflexivity]|].
  destruct lines as [|y lines].
  - cbn [Py.join]. split; [apply newline_free_no_long_run, Hx|].
    rewrite <- (app_nil_r_str x). apply count_nl_line; assumption.
  - change (Py.join NL (x :: y :: lines))
      with (x +:+ NL +:+ Py.join NL (y :: lines)).
    destruct IH as [Hrun Hcount]. split.
    + unfold NL at 1. rewrite app_cons_str, app_nil_l_str.
      apply line_then_newline_no_long_run; [exact Hx|exact Hrun|lia].
    + apply count_nl_line; assumption.
Qed.

Lemma strip_truthy line : Py.truthy (Py.strip line) = true -> Py.truthy line = true.
Proof. destruct line; [discriminate|reflexivity]. Qed.

Lemma emitted_unmatched titles lines :
  Forall (fun line => unmatched titles line = true) lines ->
  concat (map (emitted titles) lines) = List.filter nonblank lines.
Proof.
  induction 1 as [|line lines Hline _ IH]; [reflexivity|].
  cbn [map concat List.filter]. rewrite IH.
  unfold emitted, unmatched, nonblank in *.
  destruct (find _ titles); [discriminate|].
  destruct (Py.truthy (Py.strip line)); reflexivity.
Qed.

(** X13: on a text none of whose lines equals or starts with a title, the
    formatter only removes the lines that are blank after stripping: it
    returns the other lines, unchanged and in order, joined by single
    newlines.  If no line is blank either, it returns the text as it
    is. *)
Theorem formatter_without_matches text titles :
  titles <> [] ->
  Forall (fun line => unmatched titles line = true) (Py.split_nl text) ->
  format_content_with_sections text titles
  = Py.join NL (List.filter nonblank (Py.split_nl text))
  /\ (Forall (fun line => nonblank line = true) (Py.split_nl text) ->
      format_content_with_sections text titles = text).
Proof.
  intros Hne Hun.
  assert (Hfun : format_content_with_sections text titles
                 = Py.join NL (List.filter nonblank (Py.split_nl text))).
  { unfold format_content_with_sections.
    apply nonempty_true in Hne. rewrite Hne. cbn [negb orb].
    destruct text as [|c text]; cbn [Py.truthy negb]; [reflexivity|].
    rewrite format_lines_emitted, (emitted_unmatched _ _ Hun).
    apply re_sub_newlines_fixed, joined_lines_no_long_run.
    apply List.Forall_forall. intros line Hin.
    apply filter_In in Hin as [Hin Hnb].
    pose proof (split_nl_newline_free (String c text)) as Hfree.
    rewrite List.Forall_forall in Hfree.
    split; [apply Hfree, Hin|apply strip_truthy, Hnb]. }
  split; [exact Hfun|].
  intros Hnb. rewrite Hfun.
  rewrite (forallb_filter_id nonblank (Py.split_nl text)).
  - apply join_split_nl.
  - apply forallb_forall. rewrite List.Forall_forall in Hnb. exact Hnb.
Qed.

Lemma formatter_without_matches_witness :
  format_content_with_sections
    ("Intro" +:+ NL +:+ "  " +:+ NL +:+ "a history") ["History"]
  = Py.join NL
      (List.filter nonblank
         (Py.split_nl ("Intro" +:+ NL +:+ "  " +:+ NL +:+ "a history")))
  /\ format_content_with_sections
       ("Intro" +:+ NL +:+ "a history") ["History"]
     = "Intro" +:+ NL +:+ "a history".
Proof.
  split.
  - apply (formatter_without_matches
             ("Intro" +:+ NL +:+ "  " +:+ NL +:+ "a history") ["History"]).
    + discriminate.
    + repeat constructor.
  - apply (formatter_without_matches
             ("Intro" +:+ NL +:+ "a history") ["History"]).
    + discriminate.
    + repeat constructor.
    + repeat constructor.
Defined.

(** ** The newline cleanup of the formatter *)

Lemma remove_nl_drop_nl s : remove_nl (drop_nl s) = remove_nl s.
Proof.
  induction s as [|c s IH]; [reflexivity|].
  cbn [drop_nl remove_nl]. destruct (Py.is_nl c) eqn:Hc; [exact IH|].
  cbn [remove_nl]. rewrite Hc. reflexivity.
Qed.

Lemma length_count_drop s :
  String.length s = count_nl s + String.length (drop_nl s).
Proof.
  induction s as [|c s IH]; [reflexivity|].
  cbn [drop_nl count_nl]. destruct (Py.is_nl c); simpl; lia.
Qed.

Lemma re_sub_newlines_keeps_text s :
  remove_nl (re_sub_newlines s) = remove_nl s
  /\ String.length (re_sub_newlines s) <= String.length s.
Proof.
  induction s as [s IH] using string_length_ind.
  destruct s as [|c s].
  - rewrite re_sub_newlines_equation_1. split; [reflexivity|lia].
  - rewrite re_sub_newlines_cons.
    destruct (Py.is_nl c) eqn:Hc; cbn [andb].
    + destruct (Nat.leb_spec 3 (count_nl s)) as [Hrun|Hrun].
      * destruct (IH (drop_nl s)) as [Htext Hlen].
        { pose proof (drop_nl_length s). simpl. lia. }
        unfold NLNL. rewrite !app_cons_str, app_nil_l_str. split.
        -- cbn [remove_nl]. change (Py.is_nl Py.nl) with true. cbn iota.
           rewrite Hc, Htext. apply remove_nl_drop_nl.
        -- pose proof (length_count_drop s). simpl. lia.
      * destruct (IH s) as [Htext Hlen]; [simpl; lia|].
        cbn [remove_nl]. rewrite Hc. split; [exact Htext|simpl; lia].
    + destruct (IH s) as [Htext Hlen]; [simpl; lia|].
      cbn [remove_nl]. rewrite Hc, Htext. split; [reflexivity|simpl; lia].
Qed.

(** X14: the cleanup [re.sub(r'\n{4,}', '\n\n', ...)] only takes newline
    characters away: every other character of the text stays, in order.
    The result is never longer than the text, and cleaning it a second time
    changes nothing. *)
Theorem newline_cleanup_only_removes_newlines s :
  remove_nl (re_sub_newlines s) = remove_nl s
  /\ String.length (re_sub_newlines s) <= String.length s
  /\ re_sub_newlines (re_sub_newlines s) = re_sub_newlines s.
Proof.
  destruct (re_sub_newlines_keeps_text s) as [Htext Hlen].
  split; [exact Htext|]. split; [exact Hlen|].
  apply re_sub_newlines_fixed, re_sub_newlines_no_long_run.
Qed.

(** ** The reference collector, continued *)

Lemma references_of_urls hrefs :
  map url (references_of hrefs) = firstn 100 (first_seen (outbound hrefs)).
Proof.
  unfold references_of. rewrite collect_references_urls by (simpl; lia).
  simpl. rewrite (filter_all _ _ unseen_empty). reflexivity.
Qed.

Lemma outbound_In hrefs u :
  In u (outbound hrefs) <-> In (Some u) hrefs /\ external u = true.
Proof.
  induction hrefs as [|[h|] rest IH]; cbn [outbound In].
  - tauto.
  - destruct (external h) eqn:Hh; cbn [In]; rewrite IH; split.
    + intros [->|[H1 H2]]; auto.
    + intros [[[= ->]|H1] H2]; auto.
    + intros [H1 H2]; auto.
    + intros [[[= ->]|H1] H2]; [congruence|auto].
  - rewrite IH. split; [intros [H1 H2]; auto|].
    intros [[H|H1] H2]; [discriminate|auto].
Qed.

Lemma external_spec u :
  external u = true <-> u <> "" /\ Py.contains u "grokipedia.com" = false.
Proof.
  unfold external. rewrite andb_true_iff, negb_true_iff.
  destruct u; simpl; split; intros [H1 H2]; split; congruence.
Qed.

(** X15: every reference is a link of the page: its URL is one of the
    [href] values, is not empty and does not contain [grokipedia.com]. *)
Theorem references_are_outbound_links hrefs r :
  In r (references_of hrefs) ->
  In (Some (url r)) hrefs
  /\ url r <> ""
  /\ Py.contains (url r) "grokipedia.com" = false.
Proof.
  intros Hin. apply (in_map url) in Hin.
  rewrite references_of_urls in Hin.
  apply firstn_In, first_seen_In, outbound_In in Hin as [Hin Hext].
  apply external_spec in Hext as [Hne Hown]. auto.
Qed.

Lemma references_are_outbound_links_witness :
  In (Some (url {| number := 2; url := "https://example.org/c" |}))
     (link_hrefs sample_page)
  /\ url {| number := 2; url := "https://example.org/c" |} <> ""
  /\ Py.contains (url {| number := 2; url := "https://example.org/c" |})
       "grokipedia.com" = false.
Proof.
  apply (references_are_outbound_links (link_hrefs sample_page)).
  right. left. reflexivity.
Defined.

(** X16: when the page has at most 100 distinct outbound links, none is
    left out: every non-empty [href] without [grokipedia.com] is the URL of
    a reference. *)
Theorem every_outbound_link_is_listed hrefs u :
  length (first_seen (outbound hrefs)) <= 100 ->
  In (Some u) hrefs ->
  u <> "" ->
  Py.contains u "grokipedia.com" = false ->
  In u (map url (references_of hrefs)).
Proof.
  intros Hcap Hin Hne Hown.
  rewrite references_of_urls, firstn_all2 by exact Hcap.
  apply first_seen_In, outbound_In. split; [exact Hin|].
  apply external_spec. auto.
Qed.

Lemma every_outbound_link_is_listed_witness :
  In "https://example.org/c" (map url (references_of (link_hrefs sample_page))).
Proof.
  apply (every_outbound_link_is_listed (link_hrefs sample_page)).
  - vm_compute. lia.
  - right. right. right. right. left. reflexivity.
  - discriminate.
  - reflexivity.
Defined.

Lemma references_determined refs : forall n urls,
  map url refs = urls ->
  map number refs = seq n (length refs) ->
  refs = number_from n urls.
Proof.
  induction refs as [|[k u] refs IH]; intros n urls Hu Hn.
  - subst urls. reflexivity.
  - cbn in Hu, Hn. subst urls. injection Hn as -> Hn.
    cbn [number_from]. f_equal. apply IH; [reflexivity|exact Hn].
Qed.

Lemma references_of_numbered hrefs :
  references_of hrefs
  = number_from 1 (firstn 100 (first_seen (outbound hrefs))).
Proof.
  apply references_determined; [apply references_of_urls|].
  unfold references_of. apply collect_references_numbers. reflexivity.
Qed.

Lemma number_from_app a : forall n b,
  number_from n (a ++ b) = number_from n a ++ number_from (n + length a) b.
Proof.
  induction a as [|u a IH]; intros n b; cbn [number_from app length].
  - rewrite Nat.add_0_r. reflexivity.
  - rewrite IH. do 3 f_equal. lia.
Qed.

Lemma length_number_from urls : forall n,
  length (number_from n urls) = length urls.
Proof.
  induction urls as [|u urls IH]; intros n; cbn; [reflexivity|].
  rewrite IH. reflexivity.
Qed.

Lemma outbound_app a b : outbound (a ++ b) = outbound a ++ outbound b.
Proof.
  induction a as [|[h|] a IH]; cbn [outbound app]; [reflexivity| |exact IH].
  destruct (external h); rewrite IH; reflexivity.
Qed.

Lemma first_seen_app a b :
  exists later, first_seen (a ++ b) = first_seen a ++ later.
Proof.
  induction a as [|x a [later IH]]; [exists (first_seen b); reflexivity|].
  exists (List.filter (fun y => negb (String.eqb y x)) later).
  cbn [first_seen app]. rewrite IH, List.filter_app. reflexivity.
Qed.

(** X17: links are taken in document order and the cap ends the scan.
    Whatever follows a list of links, the references collected from the
    list alone are the beginning of those collected from the longer list,
    with the same numbers; once the list has given 100 references, what
    follows changes nothing. *)
Theorem references_grow_by_appending hrefs later_hrefs :
  (exists more,
     references_of (hrefs ++ later_hrefs) = references_of hrefs ++ more)
  /\ (length (references_of hrefs) = 100 ->
      references_of (hrefs ++ later_hrefs) = references_of hrefs).
Proof.
  rewrite !references_of_numbered, outbound_app.
  destruct (first_seen_app (outbound hrefs) (outbound later_hrefs))
    as [later ->].
  rewrite firstn_app, number_from_app. split.
  - eexists. reflexivity.
  - intros Hlen. rewrite length_number_from, length_firstn in Hlen.
    replace (100 - length (first_seen (outbound hrefs))) with 0 by lia.
    cbn [firstn number_from]. rewrite app_nil_r. reflexivity.
Qed.

(** ** The size metrics *)

Lemma split_length_bound s :
  2 * length (Py.split s) <= String.length s + 1
  /\ (forall c s', s = String c s' -> Py.is_space c = true ->
      2 * length (Py.split s) <= String.length s).
Proof.
  induction s as [|c s IH]; [split; [simpl; lia|discriminate]|].
  destruct IH as [IH IHspace].
  assert (Hgen : 2 * length (Py.split (String c s)) <= String.length (String c s) + 1).
  { cbn [Py.split]. destruct (Py.is_space c); [simpl; lia|].
    destruct s as [|d s]; [simpl; lia|].
    destruct (Py.is_space d) eqn:Hd.
    - specialize (IHspace d s eq_refl Hd). simpl in *. lia.
    - destruct (Py.split (String d s)); simpl in *; lia. }
  split; [exact Hgen|].
  intros c' s' [= <- <-] Hc. cbn [Py.split]. rewrite Hc. simpl. lia.
Qed.

Lemma split_nil s : Py.split s = [] <-> all_space s = true.
Proof.
  induction s as [|c s IH]; [split; reflexivity|].
  cbn [Py.split all_space]. destruct (Py.is_space c); cbn [andb]; [exact IH|].
  split; [|discriminate].
  destruct s as [|d s]; [discriminate|].
  destruct (Py.is_space d); [discriminate|].
  destruct (Py.split (String d s)); discriminate.
Qed.

(** X18: the returned [word_count] and [char_count] are tied to each
    other: with n words the text has at least 2n - 1 characters, so
    [word_count] never exceeds [char_count]; and [word_count] is 0 exactly
    when [content_text] is empty or holds only whitespace. *)
Theorem word_count_bounded_by_char_count page :
  2 * r_word_count (scrape_article_page page)
  <= r_char_count (scrape_article_page page) + 1
  /\ r_word_count (scrape_article_page page)
     <= r_char_count (scrape_article_page page)
  /\ (r_word_count (scrape_article_page page) = 0
      <-> all_space (r_content_text (scrape_article_page page)) = true).
Proof.
  destruct (scrape_counts page) as [-> ->]. unfold Py.len.
  destruct (split_length_bound (r_content_text (scrape_article_page page)))
    as [Hb _].
  split; [exact Hb|]. split; [lia|].
  rewrite <- split_nil.
  destruct (Py.split (r_content_text (scrape_article_page page)));
    simpl; split; congruence.
Qed.

(** ** The [/scrape] endpoint *)

Lemma all_space_lstrip s : all_space (Py.lstrip s) = all_space s.
Proof.
  induction s as [|c s IH]; [reflexivity|].
  cbn [Py.lstrip all_space]. destruct (Py.is_space c) eqn:Hc; [exact IH|].
  cbn [all_space]. rewrite Hc. reflexivity.
Qed.

Lemma rstrip_empty s : Py.rstrip s = "" <-> all_space s = true.
Proof.
  induction s as [|c s IH]; [split; reflexivity|].
  cbn [Py.rstrip all_space].
  destruct (Py.rstrip s) as [|d r].
  - destruct (Py.is_space c); cbn [andb].
    + rewrite <- IH. split; reflexivity.
    + split; discriminate.
  - split; [discriminate|]. intros H.
    apply andb_true_iff in H as [_ H]. apply IH in H. discriminate.
Qed.

Lemma strip_blank s : Py.truthy (Py.strip s) = false <-> all_space s = true.
Proof.
  rewrite <- all_space_lstrip, <- rstrip_empty. unfold Py.strip.
  destruct (Py.rstrip (Py.lstrip s)); simpl; split; congruence.
Qed.

Lemma query_gate request :
  negb (Py.truthy (query request))
  || negb (Py.truthy (Py.strip (query request)))
  = all_space (query request).
Proof.
  destruct (all_space (query request)) eqn:Hs.
  - apply strip_blank in Hs. rewrite Hs. apply orb_true_r.
  - assert (Ht : Py.truthy (Py.strip (query request)) = true).
    { destruct (Py.truthy (Py.strip (query request))) eqn:Ht; [reflexivity|].
      apply strip_blank in Ht. congruence. }
    rewrite Ht, (strip_truthy _ Ht). reflexivity.
Qed.

Lemma handle_cases request outside :
  handle request outside
  = if all_space (query request)
    then (inr (HTTPException 400 "Query cannot be empty"), initial_request_state)
    else match chrome_fails outside with
         | Some msg =>
             (inr (HTTPException 500 ("Scraping failed: " +:+ msg)),
              initial_request_state)
         | None =>
             (match search_ends outside with
              | inl msg => inr (HTTPException 500 msg)
              | inr page =>
                  inl {| body_data := scrape_article_page page;
                         body_timestamp := now_isoformat outside;
                         body_query := query request |}
              end,
              {| scraper := true;
                 driver_events := [ChromeStarted (headless request); ChromeQuit] |})
         end.
Proof.
  unfold handle, scrape_grokipedia. rewrite query_gate.
  destruct (all_space (query request)); [reflexivity|].
  unfold finally, except_clauses, try_body, bind, new_scraper, search_and_scrape.
  destruct (chrome_fails outside); [reflexivity|].
  destruct (search_ends outside); reflexivity.
Qed.

(** X19: a request is turned away with status 400 and the detail
    ["Query cannot be empty"] exactly when its query is empty or holds only
    whitespace; no browser is started for it. *)
Theorem blank_query_is_rejected request outside :
  (fst (handle request outside)
   = inr (HTTPException 400 "Query cannot be empty")
   <-> all_space (query request) = true)
  /\ (all_space (query request) = true ->
      driver_events (snd (handle request outside)) = []).
Proof.
  rewrite handle_cases.
  destruct (all_space (query request)).
  - split; [split; reflexivity|reflexivity].
  - split; [|discriminate]. split; [|discriminate].
    destruct (chrome_fails outside); [discriminate|].
    destruct (search_ends outside); discriminate.
Qed.



(** ** The address of the direct navigation *)

Ltac by_cases_on_char c :=
  destruct c as [[] [] [] [] [] [] [] []]; vm_compute; try reflexivity;
  try discriminate; auto.

Lemma to_lower_cased c : Case.is_cased (Case.to_lower c) = Case.is_cased c.
Proof. by_cases_on_char c. Qed.

Lemma to_upper_to_lower c : Case.to_upper (Case.to_lower c) = Case.to_upper c.
Proof. by_cases_on_char c. Qed.

Lemma to_lower_to_lower c : Case.to_lower (Case.to_lower c) = Case.to_lower c.
Proof. by_cases_on_char c. Qed.

Lemma to_lower_space c :
  Case.to_lower (if Ascii.eqb c " " then "_"%char else c)
  = if Ascii.eqb (Case.to_lower c) " " then "_"%char else Case.to_lower c.
Proof. by_cases_on_char c. Qed.

Lemma title_char_not_space (b : bool) c :
  Ascii.eqb (if b then Case.to_lower (if Ascii.eqb c " " then "_"%char else c)
             else Case.to_upper (if Ascii.eqb c " " then "_"%char else c)) " "
  = false.
Proof. destruct b; by_cases_on_char c. Qed.

Lemma title_from_lower s : forall b,
  Case.title_from b (Py.lower s) = Case.title_from b s.
Proof.
  induction s as [|c s IH]; intros b; [reflexivity|].
  cbn [Py.lower Case.title_from].
  fold (Case.to_lower c).
  rewrite to_lower_cased, IH, to_upper_to_lower, to_lower_to_lower.
  reflexivity.
Qed.

Lemma replace_space_lower s :
  Py.lower (Case.replace_space s) = Case.replace_space (Py.lower s).
Proof.
  induction s as [|c s IH]; [reflexivity|].
  cbn [Py.lower Case.replace_space]. rewrite IH. f_equal. apply to_lower_space.
Qed.

Lemma title_from_length s : forall b,
  String.length (Case.title_from b s) = String.length s.
Proof.
  induction s as [|c s IH]; intros b; [reflexivity|].
  cbn [Case.title_from String.length]. rewrite IH. reflexivity.
Qed.

Lemma replace_space_length s :
  String.length (Case.replace_space s) = String.length s.
Proof. induction s as [|c s IH]; [reflexivity|]. simpl. rewrite IH. reflexivity. Qed.

Lemma contains_one_char s c :
  Py.contains s (String c "") = false <->
  Forall (fun d => Ascii.eqb c d = false) (list_ascii_of_string s).
Proof.
  induction s as [|d s IH]; cbn [Py.contains list_ascii_of_string].
  - split; [constructor|reflexivity].
  - rewrite orb_false_iff, IH, Forall_cons_iff.
    cbn [Py.startswith].
    assert (Hs : Py.startswith s "" = true) by (destruct s; reflexivity).
    rewrite Hs, andb_true_r. reflexivity.
Qed.

Lemma title_of_replaced_has_no_space s : forall b,
  Forall (fun d => Ascii.eqb " " d = false)
         (list_ascii_of_string (Case.title_from b (Case.replace_space s))).
Proof.
  induction s as [|c s IH]; intros b; [constructor|].
  cbn [Case.replace_space Case.title_from list_ascii_of_string].
  constructor; [|apply IH].
  rewrite Ascii.eqb_sym. apply title_char_not_space.
Qed.

(** X22: for queries of ASCII characters, the address of the direct
    navigation does not depend on letter case: two queries that are equal
    up to case give the same address.  The address holds no space and is as
    long as the query plus the 28 characters of
    ["https://grokipedia.com/page/"]. *)
Theorem page_url_ignores_case query1 query2 :
  Case.is_ascii query1 = true ->
  Case.is_ascii query2 = true ->
  Py.lower query1 = Py.lower query2 ->
  page_url query1 = page_url query2
  /\ Py.contains (page_url query1) " " = false
  /\ String.length (page_url query1) = 28 + String.length query1.
Proof.
  intros _ _ Hlower. unfold page_url, Case.title. split; [|split].
  - f_equal.
    rewrite <- (title_from_lower (Case.replace_space query1)).
    rewrite <- (title_from_lower (Case.replace_space query2)).
    rewrite !replace_space_lower, Hlower. reflexivity.
  - apply contains_one_char.
    change (list_ascii_of_string
              ("https://grokipedia.com/page/"
               +:+ Case.title_from false (Case.replace_space query1)))
      with (list_ascii_of_string "https://grokipedia.com/page/"
            ++ list_ascii_of_string
                 (Case.title_from false (Case.replace_space query1))).
    apply Forall_app. split.
    + repeat constructor.
    + apply title_of_replaced_has_no_space.
  - rewrite length_app_str, title_from_length, replace_space_length.
    reflexivity.
Qed.

Lemma page_url_ignores_case_witness :
  page_url "new YORK city" = page_url "New york CITY"
  /\ Py.contains (page_url "new YORK city") " " = false
  /\ String.length (page_url "new YORK city") = 28 + String.length "new YORK city".
Proof.
  apply (page_url_ignores_case "new YORK city" "New york CITY"); reflexivity.
Defined.

Example page_url_of_two_words :
  page_url "new YORK city" = "https://grokipedia.com/page/New_York_City".
Proof. reflexivity. Qed.

(** ** The shape of the saved sections *)

Lemma collect_paragraphs_In following p :
  In p (collect_paragraphs following) ->
  exists i, In (Paragraph p i) following.
Proof.
  induction following as [|[t lv i|t i] following IH]; cbn; [tauto..|].
  intros [<-|Hin]; [exists i; left; reflexivity|].
  destruct (IH Hin) as [j Hj]. exists j. right. exact Hj.
Qed.

(** X23: the sections of [structured_content] are well formed: the title
    is a string of at least 3 characters without whitespace at either end,
    and every paragraph has more than 20 characters and no whitespace at
    either end. *)
Theorem structured_sections_are_well_formed page l sec :
  r_structured_content (scrape_article_page page) = Some l ->
  In sec l ->
  (exists t, title sec = Some t /\ 3 <= Py.len t /\ Py.strip t = t)
  /\ Forall (fun p => 20 < Py.len p /\ Py.strip p = p) (content sec).
Proof.
  rewrite scrape_structured. intros Hl Hin.
  apply or_none_some in Hl as [-> _].
  rewrite grouped_sections_eq in Hin.
  apply sections_of_origin in Hin
    as (pre & t & lv & i & following & Hed & -> & _).
  unfold elements_data in Hed. cbn [title content]. split.
  - exists t. split; [reflexivity|].
    assert (Hd : In (Heading t lv i) (first_pass (all_elements page)))
      by (rewrite Hed; apply in_elt).
    apply first_pass_from_In in Hd as (element & _ & _ & Hc).
    destruct (classify_facts _ _ _ Hc) as (_ & Ht & Hlen & _).
    cbn [elem_text] in Ht, Hlen. split; [exact Hlen|].
    rewrite Ht. apply strip_idempotent.
  - apply List.Forall_forall. intros p Hp.
    apply collect_paragraphs_In in Hp as [j Hj].
    assert (Hd : In (Paragraph p j) (first_pass (all_elements page))).
    { rewrite Hed. apply in_or_app. right. right. exact Hj. }
    apply first_pass_from_In in Hd as (element & _ & _ & Hc).
    destruct (classify_facts _ _ _ Hc) as (_ & Ht & _ & _ & Hlen).
    cbn [elem_text] in Ht, Hlen. split; [exact Hlen|].
    rewrite Ht. apply strip_idempotent.
Qed.

Lemma structured_sections_are_well_formed_witness :
  (exists t, title {| title := Some "Overview"; level := 1;
                      content := [overview_paragraph] |} = Some t
             /\ 3 <= Py.len t /\ Py.strip t = t)
  /\ Forall (fun p => 20 < Py.len p /\ Py.strip p = p)
            (content {| title := Some "Overview"; level := 1;
                        content := [overview_paragraph] |}).
Proof.
  apply (structured_sections_are_well_formed sample_page
           (grouped_sections (first_pass sample_elements))).
  - reflexivity.
  - left. reflexivity.
Defined.
